(** * CAPI call control of librm (plugins/capi/capi.c)

    A shallow embedding of the connection pool, the call state machine and
    the dispatch loop of [capi.c], with the properties the specification
    states about them.

    Conventions of the embedding:
    - C integers are [Z]; the [unsigned int] counter [id] wraps at 2^32 and
      bytes wrap at 2^8, both written out.
    - A [struct capi_connection *] is the index of a slot of the session's
      table ([None] is [NULL]).
    - Every function that touches the globals is a computation in the monad
      [M]: it threads the [world] and either returns or stops on a fault
      (a dereference of [NULL], a read outside an object, a failed
      [g_assert]).
    - What the program does to the outside (CAPI primitives, idle sources
      attached to the main context, capability hooks, sleeps) is appended
      to the [trace] of the world; what the outside answers is read from an
      [environment], a function of the trace so far.
    - A local array is the list of its cells that the function has written;
      a read past them, like a read past the bytes of a message field, is
      a fault.
    - [g_debug] lines that narrate a step of the normal path are left out;
      the line of a branch that reports an anomaly is kept as a [debug]
      event. [isdn_lock]/[isdn_unlock] are left out: the model is
      sequential. *)

From Stdlib Require Import ZArith Lia String.
From stdpp Require Import base list.

Local Open Scope Z_scope.

(** ** Data model *)

(** Modelled from the spec: [capi.h] is not among the sources. The spec
    lists the states of a connection; IDLE is the initial state, and the
    table is allocated and released zeroed, so IDLE is the zero value. Any
    other value of the [state] field is [STATE_UNEXPECTED]. *)
Inductive conn_state : Type :=
| STATE_IDLE
| STATE_RINGING
| STATE_CONNECT_WAIT
| STATE_CONNECT_ACTIVE
| STATE_CONNECT_B3_WAIT
| STATE_CONNECTED
| STATE_DISCONNECT_B3_REQ
| STATE_DISCONNECT_B3_WAIT
| STATE_DISCONNECT_ACTIVE
| STATE_INCOMING_WAIT
| STATE_UNEXPECTED (code : Z).

(** Modelled from the spec: [capi.h] is not among the sources. The call
    kinds are phone, fax and none; none is the zero value ([capi_find_new]
    tests [type != 0], the spec says kind other than none). Any other value
    of the [type] field is [SESSION_UNHANDLED]. *)
Inductive session_type : Type :=
| SESSION_NONE
| SESSION_FAX
| SESSION_PHONE
| SESSION_UNHANDLED (code : Z).

(** The functions of phone.c and fax.c that a connection is bound to. *)
Inductive capability : Type :=
| capi_phone_init_data
| capi_phone_data
| capi_fax_init_data
| capi_fax_data
| capi_fax_clean.

(** A C string without its terminating NUL; a [_cstruct] or any other byte
    pointer is [None] for [NULL] or the bytes that may be read through it. *)
Definition cstring := list Z.
Definition bytes := option (list Z).

(** Modelled from the spec: [struct capi_connection] is declared in
    [capi.h], which is not among the sources; the fields are those that
    [capi.c] reads or writes. [priv], [audio] are pointers, [None] is
    [NULL]. *)
Record capi_connection : Type := mk_connection {
  id : Z;
  plci : Z;
  ncci : Z;
  state : conn_state;
  type : session_type;
  early_b3 : Z;
  init_data : option capability;
  data : option capability;
  clean : option capability;
  priv : option Z;
  source : option cstring;
  target : option cstring;
  connect_time : Z;
  audio : option Z;
  ncpi : bytes;
  reason : Z;
  reason_b3 : Z;
  use_buffers : Z;
  buffers : Z
}.

(** The slot after [memset(connection, 0, sizeof(struct capi_connection))]. *)
Definition zero_connection : capi_connection :=
  mk_connection 0 0 0 STATE_IDLE SESSION_NONE 0 None None None None None None
                0 None None 0 0 0 0.

(** Field assignments [connection->f = v]. *)
Definition set_id (v : Z) (c : capi_connection) : capi_connection :=
  let (_, a2, a3, a4, a5, a6, a7, a8, a9, a10, a11, a12, a13, a14, a15, a16, a17, a18, a19) := c in
  mk_connection v a2 a3 a4 a5 a6 a7 a8 a9 a10 a11 a12 a13 a14 a15 a16 a17 a18 a19.
Definition set_plci (v : Z) (c : capi_connection) : capi_connection :=
  let (a1, _, a3, a4, a5, a6, a7, a8, a9, a10, a11, a12, a13, a14, a15, a16, a17, a18, a19) := c in
  mk_connection a1 v a3 a4 a5 a6 a7 a8 a9 a10 a11 a12 a13 a14 a15 a16 a17 a18 a19.
Definition set_ncci (v : Z) (c : capi_connection) : capi_connection :=
  let (a1, a2, _, a4, a5, a6, a7, a8, a9, a10, a11, a12, a13, a14, a15, a16, a17, a18, a19) := c in
  mk_connection a1 a2 v a4 a5 a6 a7 a8 a9 a10 a11 a12 a13 a14 a15 a16 a17 a18 a19.
Definition set_state (v : conn_state) (c : capi_connection) : capi_connection :=
  let (a1, a2, a3, _, a5, a6, a7, a8, a9, a10, a11, a12, a13, a14, a15, a16, a17, a18, a19) := c in
  mk_connection a1 a2 a3 v a5 a6 a7 a8 a9 a10 a11 a12 a13 a14 a15 a16 a17 a18 a19.
Definition set_type (v : session_type) (c : capi_connection) : capi_connection :=
  let (a1, a2, a3, a4, _, a6, a7, a8, a9, a10, a11, a12, a13, a14, a15, a16, a17, a18, a19) := c in
  mk_connection a1 a2 a3 a4 v a6 a7 a8 a9 a10 a11 a12 a13 a14 a15 a16 a17 a18 a19.
Definition set_early_b3 (v : Z) (c : capi_connection) : capi_connection :=
  let (a1, a2, a3, a4, a5, _, a7, a8, a9, a10, a11, a12, a13, a14, a15, a16, a17, a18, a19) := c in
  mk_connection a1 a2 a3 a4 a5 v a7 a8 a9 a10 a11 a12 a13 a14 a15 a16 a17 a18 a19.
Definition set_init_data (v : option capability) (c : capi_connection) : capi_connection :=
  let (a1, a2, a3, a4, a5, a6, _, a8, a9, a10, a11, a12, a13, a14, a15, a16, a17, a18, a19) := c in
  mk_connection a1 a2 a3 a4 a5 a6 v a8 a9 a10 a11 a12 a13 a14 a15 a16 a17 a18 a19.
Definition set_data (v : option capability) (c : capi_connection) : capi_connection :=
  let (a1, a2, a3, a4, a5, a6, a7, _, a9, a10, a11, a12, a13, a14, a15, a16, a17, a18, a19) := c in
  mk_connection a1 a2 a3 a4 a5 a6 a7 v a9 a10 a11 a12 a13 a14 a15 a16 a17 a18 a19.
Definition set_clean (v : option capability) (c : capi_connection) : capi_connection :=
  let (a1, a2, a3, a4, a5, a6, a7, a8, _, a10, a11, a12, a13, a14, a15, a16, a17, a18, a19) := c in
  mk_connection a1 a2 a3 a4 a5 a6 a7 a8 v a10 a11 a12 a13 a14 a15 a16 a17 a18 a19.
Definition set_source (v : option cstring) (c : capi_connection) : capi_connection :=
  let (a1, a2, a3, a4, a5, a6, a7, a8, a9, a10, _, a12, a13, a14, a15, a16, a17, a18, a19) := c in
  mk_connection a1 a2 a3 a4 a5 a6 a7 a8 a9 a10 v a12 a13 a14 a15 a16 a17 a18 a19.
Definition set_target (v : option cstring) (c : capi_connection) : capi_connection :=
  let (a1, a2, a3, a4, a5, a6, a7, a8, a9, a10, a11, _, a13, a14, a15, a16, a17, a18, a19) := c in
  mk_connection a1 a2 a3 a4 a5 a6 a7 a8 a9 a10 a11 v a13 a14 a15 a16 a17 a18 a19.
Definition set_connect_time (v : Z) (c : capi_connection) : capi_connection :=
  let (a1, a2, a3, a4, a5, a6, a7, a8, a9, a10, a11, a12, _, a14, a15, a16, a17, a18, a19) := c in
  mk_connection a1 a2 a3 a4 a5 a6 a7 a8 a9 a10 a11 a12 v a14 a15 a16 a17 a18 a19.
Definition set_audio (v : option Z) (c : capi_connection) : capi_connection :=
  let (a1, a2, a3, a4, a5, a6, a7, a8, a9, a10, a11, a12, a13, _, a15, a16, a17, a18, a19) := c in
  mk_connection a1 a2 a3 a4 a5 a6 a7 a8 a9 a10 a11 a12 a13 v a15 a16 a17 a18 a19.
Definition set_ncpi (v : bytes) (c : capi_connection) : capi_connection :=
  let (a1, a2, a3, a4, a5, a6, a7, a8, a9, a10, a11, a12, a13, a14, _, a16, a17, a18, a19) := c in
  mk_connection a1 a2 a3 a4 a5 a6 a7 a8 a9 a10 a11 a12 a13 a14 v a16 a17 a18 a19.
Definition set_reason (v : Z) (c : capi_connection) : capi_connection :=
  let (a1, a2, a3, a4, a5, a6, a7, a8, a9, a10, a11, a12, a13, a14, a15, _, a17, a18, a19) := c in
  mk_connection a1 a2 a3 a4 a5 a6 a7 a8 a9 a10 a11 a12 a13 a14 a15 v a17 a18 a19.
Definition set_reason_b3 (v : Z) (c : capi_connection) : capi_connection :=
  let (a1, a2, a3, a4, a5, a6, a7, a8, a9, a10, a11, a12, a13, a14, a15, a16, _, a18, a19) := c in
  mk_connection a1 a2 a3 a4 a5 a6 a7 a8 a9 a10 a11 a12 a13 a14 a15 a16 v a18 a19.
Definition set_buffers (v : Z) (c : capi_connection) : capi_connection :=
  let (a1, a2, a3, a4, a5, a6, a7, a8, a9, a10, a11, a12, a13, a14, a15, a16, a17, a18, _) := c in
  mk_connection a1 a2 a3 a4 a5 a6 a7 a8 a9 a10 a11 a12 a13 a14 a15 a16 a17 a18 v.

(** Modelled from the spec: [struct session] is declared in [capi.h]; the
    fields are those that [capi.c] uses. [connection] is the table
    [connection[CAPI_CONNECTIONS]]: its length is the constant
    [CAPI_CONNECTIONS] of [capi.h], and the loops over the indices below
    [CAPI_CONNECTIONS] are loops over the list. *)
Record session_t : Type := mk_session {
  appl_id : Z;
  message_number : Z;
  input_thread_state : Z;
  connection : list capi_connection
}.

Definition set_appl_id (v : Z) (s : session_t) : session_t :=
  mk_session v (message_number s) (input_thread_state s) (connection s).
Definition set_message_number (v : Z) (s : session_t) : session_t :=
  mk_session (appl_id s) v (input_thread_state s) (connection s).
Definition set_input_thread_state (v : Z) (s : session_t) : session_t :=
  mk_session (appl_id s) (message_number s) v (connection s).
Definition set_connection (v : list capi_connection) (s : session_t) : session_t :=
  mk_session (appl_id s) (message_number s) (input_thread_state s) v.

(** The commands and subcommands of a CAPI message (capi20.h). *)
Inductive command : Type :=
| CAPI_ALERT
| CAPI_CONNECT
| CAPI_CONNECT_ACTIVE
| CAPI_CONNECT_B3
| CAPI_CONNECT_B3_ACTIVE
| CAPI_DATA_B3
| CAPI_DISCONNECT
| CAPI_DISCONNECT_B3
| CAPI_FACILITY
| CAPI_INFO
| CAPI_LISTEN
| CAPI_command (code : Z).

Definition command_code (c : command) : Z :=
  match c with
  | CAPI_ALERT => 1
  | CAPI_CONNECT => 2
  | CAPI_CONNECT_ACTIVE => 3
  | CAPI_DISCONNECT => 4
  | CAPI_LISTEN => 5
  | CAPI_INFO => 8
  | CAPI_FACILITY => 128
  | CAPI_CONNECT_B3 => 130
  | CAPI_CONNECT_B3_ACTIVE => 131
  | CAPI_DISCONNECT_B3 => 132
  | CAPI_DATA_B3 => 134
  | CAPI_command code => code
  end.

Inductive subcommand : Type :=
| CAPI_REQ
| CAPI_CONF
| CAPI_IND
| CAPI_RESP.

(** The fields of [_cmsg] that [capi.c] reads. [adr] is the union of
    controller, PLCI and NCCI. *)
Record _cmsg : Type := mk_cmsg {
  Command : command;
  Subcommand : subcommand;
  adr : Z;
  Info : Z;
  CIPValue : Z;
  CallingPartyNumber : bytes;
  CalledPartyNumber : bytes;
  InfoNumber : Z;
  InfoElement : bytes;
  FacilitySelector : Z;
  FacilityIndicationParameter : bytes;
  NCPI : bytes;
  Reason : Z;
  Reason_B3 : Z;
  DataHandle : Z
}.

(** ** Effects *)

(** The CAPI primitives [capi.c] calls, with the arguments it chooses. *)
Inductive request : Type :=
| CAPI20_ISINSTALLED
| CAPI20_GET_PROFILE (controller : Z)
| CAPI20_REGISTER
| CAPI20_RELEASE (appl : Z)
| CAPI20_WaitforMessage (appl : Z)
| capi_get_cmsg (appl : Z)
| LISTEN_REQ (appl msgnum controller infomask cipmask cipmask2 : Z)
| ALERT_REQ (appl msgnum plci : Z)
| CONNECT_REQ (appl msgnum controller cip : Z) (called calling : list Z)
              (b1 b2 b3 : Z) (b1conf b2conf b3conf : bytes) (bc llc hlc : list Z)
| CONNECT_RESP (appl msgnum plci reject b1 b2 b3 : Z) (connected : bytes)
| CONNECT_ACTIVE_RESP (appl msgnum plci : Z)
| CONNECT_B3_REQ (appl msgnum plci : Z)
| CONNECT_B3_RESP (appl msgnum ncci reject : Z)
| CONNECT_B3_ACTIVE_RESP (appl msgnum ncci : Z)
| DATA_B3_RESP (appl msgnum ncci handle : Z)
| DISCONNECT_B3_REQ (appl msgnum ncci : Z)
| DISCONNECT_B3_RESP (appl msgnum ncci : Z)
| DISCONNECT_REQ (appl msgnum plci : Z)
| DISCONNECT_RESP (appl msgnum plci : Z)
| FACILITY_REQ (appl msgnum address selector : Z) (parameter : list Z)
| FACILITY_RESP (appl msgnum plci selector : Z) (parameter : bytes)
| INFO_RESP (appl msgnum plci : Z).

(** The callbacks [capi.c] attaches to the main context as idle sources. *)
Inductive callback : Type :=
| emit_connect
| emit_disconnect
| emit_incoming
| emit_status.

(** An [RmConnection *] of the application. *)
Definition RmConnection := Z.

Inductive event : Type :=
| wire (r : request)
| idle (cb : callback) (c : RmConnection)
| hook (h : capability) (connection_id : Z)
| rm_connection_add (connection_id : Z) (number local : cstring)
| rm_audio_open
| rm_audio_close (handle : option Z)
| rm_object_emit_message (title body : string)
| g_usleep (usec : Z)
| debug (line : string) (arg : Z).

(** The global session pointer: [NULL], or the address of the one
    [struct session] of the process. *)
Inductive pointer : Type :=
| NULL
| PTR.

(** The globals of [capi.c]: [session], the struct it points to when it is
    set ([heap]), the counter [id] ([unique_id]), and the trace. *)
Record world : Type := mk_world {
  session : pointer;
  heap : session_t;
  unique_id : Z;
  trace : list event
}.

Definition set_session (v : pointer) (w : world) : world :=
  mk_world v (heap w) (unique_id w) (trace w).
Definition set_heap (v : session_t) (w : world) : world :=
  mk_world (session w) v (unique_id w) (trace w).
Definition set_unique_id (v : Z) (w : world) : world :=
  mk_world (session w) (heap w) v (trace w).
Definition set_trace (v : list event) (w : world) : world :=
  mk_world (session w) (heap w) (unique_id w) v.

(** What the outside answers, as a function of what has happened so far. *)
Record environment : Type := mk_environment {
  capi20 : list event -> request -> Z;
  capi20_message : list event -> _cmsg;
  capi20_ncontroller : list event -> Z;
  capi20_appl_id : list event -> Z;
  g_cancellable_is_cancelled : list event -> bool;
  rm_connection_find_by_id : list event -> Z -> option RmConnection;
  rm_connection_new : list event -> Z -> option RmConnection;
  audio_handle : list event -> option Z;
  time : list event -> Z;
  capability_effect : capability -> capi_connection -> capi_connection;
  input_thread_polls : list event -> nat
}.

Inductive fault : Type :=
| NullPointer
| OutOfBounds
| AssertionFailed.

Inductive outcome (A : Type) : Type :=
| Ok (a : A) (w : world)
| Crash (f : fault) (w : world).
Arguments Ok {A} a w.
Arguments Crash {A} f w.

Definition M (A : Type) : Type := world -> outcome A.

Definition ret {A : Type} (a : A) : M A := fun w => Ok a w.
Definition bind {A B : Type} (m : M A) (k : A -> M B) : M B :=
  fun w => match m w with
           | Ok a w' => k a w'
           | Crash f w' => Crash f w'
           end.
Definition crash {A : Type} (f : fault) : M A := fun w => Crash f w.
Definition get : M world := fun w => Ok w w.
Definition modify (f : world -> world) : M unit := fun w => Ok tt (f w).
Definition emit (e : event) : M unit :=
  modify (fun w => set_trace (trace w ++ [e]) w).

Declare Scope capi_scope.
Delimit Scope capi_scope with capi.
Notation "x <- m ;; k" := (bind m (fun x => k))
  (at level 100, m at next level, right associativity) : capi_scope.
Notation "m ;;; k" := (bind m (fun _ => k))
  (at level 100, right associativity) : capi_scope.
Local Open Scope capi_scope.

Definition when (b : bool) (m : M unit) : M unit := if b then m else ret tt.

(** ** Equality tests of the enumerations *)

Definition state_eqb (a b : conn_state) : bool :=
  match a, b with
  | STATE_IDLE, STATE_IDLE
  | STATE_RINGING, STATE_RINGING
  | STATE_CONNECT_WAIT, STATE_CONNECT_WAIT
  | STATE_CONNECT_ACTIVE, STATE_CONNECT_ACTIVE
  | STATE_CONNECT_B3_WAIT, STATE_CONNECT_B3_WAIT
  | STATE_CONNECTED, STATE_CONNECTED
  | STATE_DISCONNECT_B3_REQ, STATE_DISCONNECT_B3_REQ
  | STATE_DISCONNECT_B3_WAIT, STATE_DISCONNECT_B3_WAIT
  | STATE_DISCONNECT_ACTIVE, STATE_DISCONNECT_ACTIVE
  | STATE_INCOMING_WAIT, STATE_INCOMING_WAIT => true
  | STATE_UNEXPECTED x, STATE_UNEXPECTED y => x =? y
  | _, _ => false
  end.

Definition type_eqb (a b : session_type) : bool :=
  match a, b with
  | SESSION_NONE, SESSION_NONE
  | SESSION_FAX, SESSION_FAX
  | SESSION_PHONE, SESSION_PHONE => true
  | SESSION_UNHANDLED x, SESSION_UNHANDLED y => x =? y
  | _, _ => false
  end.

(** ** C strings and byte buffers *)

(** The bytes of a string literal. *)
Fixpoint literal (s : string) : cstring :=
  match s with
  | EmptyString => []
  | String a rest => Z.of_N (Ascii.N_of_ascii a) :: literal rest
  end.

(** [(unsigned char) v]. *)
Definition uchar (v : Z) : Z := v mod 256.

(** [strlen] of a buffer: the bytes before the first NUL. *)
Fixpoint c_str (buf : list Z) : cstring :=
  match buf with
  | [] => []
  | b :: rest => if b =? 0 then [] else b :: c_str rest
  end.

(** The [n] cells that [strncpy(dst, src, n)] writes: the string, cut at
    [n] or padded with NUL up to [n]. *)
Definition strncpy (src : cstring) (n : nat) : list Z :=
  take n (src ++ replicate n 0).

(** [s[0]] of a string: its first byte, or the terminating NUL. *)
Definition first_char (s : cstring) : Z :=
  match s with
  | [] => 0
  | b :: _ => b
  end.

(** [strchr(s, ch)] followed by [+ 1]: what follows the first [ch]. *)
Fixpoint after_char (ch : Z) (s : cstring) : option cstring :=
  match s with
  | [] => None
  | b :: rest => if b =? ch then Some rest else after_char ch rest
  end.

(** [memcpy(dst + at, src, length src)] into a buffer. *)
Fixpoint memcpy (dst : list Z) (at_ : nat) (src : list Z) : list Z :=
  match src with
  | [] => dst
  | b :: rest => memcpy (<[at_ := b]> dst) (S at_) rest
  end.

(** The first slot of a table that satisfies [p], as the loops
    [for (i = 0; i < CAPI_CONNECTIONS; i++) if (p(connection[i])) return]
    find it. *)
Fixpoint scan (p : capi_connection -> bool) (table : list capi_connection) (i : nat) : option nat :=
  match table with
  | [] => None
  | c :: rest => if p c then Some i else scan p rest (S i)
  end.

(** A slot is free when [plci == 0 && ncci == 0]. *)
Definition is_free (c : capi_connection) : bool :=
  (plci c =? 0) && (ncci c =? 0).

Definition occupied (table : list capi_connection) : nat :=
  length (List.filter (fun c => negb (is_free c)) table).

Definition pool_full (w : world) : Prop :=
  Forall (fun c => is_free c = false) (connection (heap w)).

(** ** Numbers of an inbound call *)

Inductive result (A : Type) : Type :=
| Val (a : A)
| Err (f : fault).
Arguments Val {A} a.
Arguments Err {A} f.

Definition result_bind {A B : Type} (r : result A) (k : A -> result B) : result B :=
  match r with
  | Val a => k a
  | Err f => Err f
  end.
Notation "x <~ r ;; k" := (result_bind r (fun x => k))
  (at level 100, r at next level, right associativity) : capi_scope.

Definition lift {A : Type} (r : result A) : M A :=
  fun w => match r with
           | Val a => Ok a w
           | Err f => Crash f w
           end.

(** [p[i]]. *)
Definition peek (p : bytes) (i : nat) : result Z :=
  match p with
  | None => Err NullPointer
  | Some cells =>
      match cells !! i with
      | Some b => Val b
      | None => Err OutOfBounds
      end
  end.

(** The [n] bytes at [p + from]. *)
Definition peek_block (p : bytes) (from n : nat) : result (list Z) :=
  match p with
  | None => Err NullPointer
  | Some cells =>
      if (from + n <=? length cells)%nat then Val (take n (drop from cells))
      else Err OutOfBounds
  end.

(** [strcpy(number, s)] at the start of a buffer. *)
Definition strcpy (number : list Z) (s : string) : list Z :=
  memcpy number 0 (literal s ++ [0]).

(** The buffer [number[256]] as [capi_get_source_no] leaves it. *)
Definition capi_get_source_no (cmsg : _cmsg) : result (list Z) :=
  let number := replicate 256 0 in
  let pnX := match CallingPartyNumber cmsg with
             | None => InfoElement cmsg
             | Some _ => CallingPartyNumber cmsg
             end in
  len <~ match pnX with
         | None => Val 0
         | Some _ => peek pnX 0
         end ;;
  number <~ (if len <=? 1 then Val (strcpy number "unknown")
             else
               x0 <~ peek pnX 0 ;;
               x2 <~ peek pnX 2 ;;
               let at_ := length (c_str number) in
               if negb (Z.land x2 128 =? 0) then
                 let number := <[Z.to_nat (Z.of_nat at_ + x0 - 1) := 0]> number in
                 let number := <[Z.to_nat (Z.of_nat at_ + x0 - 2) := 0]> number in
                 block <~ peek_block pnX 3 (Z.to_nat (x0 - 2)) ;;
                 Val (memcpy number (length (c_str number)) block)
               else
                 let number := <[Z.to_nat (Z.of_nat at_ + x0) := 0]> number in
                 let number := <[Z.to_nat (Z.of_nat at_ + x0 - 1) := 0]> number in
                 block <~ peek_block pnX 2 (Z.to_nat (x0 - 1)) ;;
                 Val (memcpy number (length (c_str number)) block)) ;;
  if (length (c_str number) =? 0)%nat then Val (strcpy number "anonymous")
  else Val number.

(** The buffer [number[256]] as [capi_get_target_no] leaves it. *)
Definition capi_get_target_no (cmsg : _cmsg) : result (list Z) :=
  let number := replicate 256 0 in
  let x := match CalledPartyNumber cmsg with
           | None => InfoElement cmsg
           | Some _ => CalledPartyNumber cmsg
           end in
  len <~ match x with
         | None => Val 0
         | Some _ => peek x 0
         end ;;
  number <~ (if len <=? 1 then Val (strcpy number "unknown")
             else
               x0 <~ peek x 0 ;;
               let at_ := length (c_str number) in
               let number := <[Z.to_nat (Z.of_nat at_ + x0) := 0]> number in
               let number := <[Z.to_nat (Z.of_nat at_ + x0 - 1) := 0]> number in
               block <~ peek_block x 2 (Z.to_nat (x0 - 1)) ;;
               Val (memcpy number (length (c_str number)) block)) ;;
  if (length (c_str number) =? 0)%nat then Val (strcpy number "anonymous")
  else Val number.

(** ** The functions of capi.c *)

Section Model.

Variable E : environment.

(** [ACCEPT_INTERN] is a build-time switch. *)
Variable ACCEPT_INTERN : bool.

(** *** Access to the globals *)

(** [session->...]: the global pointer is dereferenced. *)
Definition the_session : M session_t :=
  fun w => match session w with
           | NULL => Crash NullPointer w
           | PTR => Ok (heap w) w
           end.

(** [connection->...] through a pointer into the table. *)
Definition load (conn : nat) : M capi_connection :=
  fun w => match connection (heap w) !! conn with
           | Some c => Ok c w
           | None => Crash OutOfBounds w
           end.

Definition store (conn : nat) (c : capi_connection) : M unit :=
  modify (fun w => set_heap (set_connection (<[conn := c]> (connection (heap w))) (heap w)) w).

Definition update (conn : nat) (f : capi_connection -> capi_connection) : M unit :=
  c <- load conn ;; store conn (f c).

(** A possibly [NULL] connection pointer is dereferenced. *)
Definition deref (connection : option nat) : M nat :=
  match connection with
  | Some conn => ret conn
  | None => crash NullPointer
  end.

(** [session->message_number++]. *)
Definition next_message_number : M Z :=
  s <- the_session ;;
  modify (fun w => set_heap (set_message_number (message_number s + 1) (heap w)) w) ;;;
  ret (message_number s).

(** A CAPI primitive is called and answers with its return code. *)
Definition call (r : request) : M Z :=
  w <- get ;;
  emit (wire r) ;;;
  ret (capi20 E (trace w) r).

(** A call through one of the function pointers of a connection. *)
Definition invoke (h : capability) (conn : nat) : M unit :=
  c <- load conn ;;
  emit (hook h (id c)) ;;;
  store conn (capability_effect E h c).

(** *** Notifications *)

Definition capi_connection_connect (conn : nat) : M unit :=
  c <- load conn ;;
  w <- get ;;
  match rm_connection_find_by_id E (trace w) (id c) with
  | Some connection => emit (idle emit_connect connection)
  | None => ret tt
  end.

Definition capi_connection_disconnect (conn : nat) : M unit :=
  c <- load conn ;;
  w <- get ;;
  match rm_connection_find_by_id E (trace w) (id c) with
  | Some connection => emit (idle emit_disconnect connection)
  | None => ret tt
  end.

Definition connection_ring (capi_connection : option nat) : M unit :=
  conn <- deref capi_connection ;;
  c <- load conn ;;
  match target c with
  | None => crash NullPointer
  | Some target =>
      let number := match after_char 35 target with
                    | Some trg => trg
                    | None => target
                    end in
      w <- get ;;
      emit (rm_connection_add (id c) number (default [] (source c))) ;;;
      match rm_connection_new E (trace w) (id c) with
      | Some connection => emit (idle emit_incoming connection)
      | None => ret tt
      end
  end.

Definition connection_status (conn : nat) (status : Z) : M unit :=
  c <- load conn ;;
  w <- get ;;
  match rm_connection_find_by_id E (trace w) (id c) with
  | Some connection => emit (idle emit_status connection)
  | None => ret tt
  end.

(** *** Connection pool *)

Definition capi_connection_set_type (conn : nat) (t : session_type) : M Z :=
  update conn (set_type t) ;;;
  match t with
  | SESSION_PHONE =>
      update conn (set_init_data (Some capi_phone_init_data)) ;;;
      update conn (set_data (Some capi_phone_data)) ;;;
      update conn (set_clean None) ;;;
      update conn (set_early_b3 1) ;;;
      ret 0
  | SESSION_FAX =>
      update conn (set_init_data (Some capi_fax_init_data)) ;;;
      update conn (set_data (Some capi_fax_data)) ;;;
      update conn (set_clean (Some capi_fax_clean)) ;;;
      update conn (set_early_b3 0) ;;;
      ret 0
  | _ =>
      emit (debug "Unhandled session type!!" 0) ;;;
      ret (-1)
  end.

Definition capi_get_free_connection : M (option nat) :=
  w <- get ;;
  match session w with
  | NULL => ret None
  | PTR =>
      match scan is_free (connection (heap w)) 0 with
      | Some i =>
          update i (set_id (unique_id w)) ;;;
          modify (set_unique_id ((unique_id w + 1) mod 2 ^ 32)) ;;;
          update i (set_state STATE_IDLE) ;;;
          ret (Some i)
      | None => ret None
      end
  end.

Definition capi_set_free (conn : nat) : M Z :=
  c <- load conn ;;
  match priv c with
  | Some _ =>
      match clean c with
      | Some h => invoke h conn
      | None => emit (debug "Warning: Private data but no clean function" 0)
      end
  | None => ret tt
  end ;;;
  store conn zero_connection ;;;
  ret 0.

(** *** Hangup *)

Definition capi_hangup (connection : option nat) : M unit :=
  match connection with
  | None => ret tt
  | Some conn =>
      c <- load conn ;;
      match state c with
      | STATE_CONNECT_WAIT
      | STATE_CONNECT_ACTIVE
      | STATE_DISCONNECT_B3_REQ
      | STATE_DISCONNECT_B3_WAIT
      | STATE_DISCONNECT_ACTIVE
      | STATE_INCOMING_WAIT =>
          s <- the_session ;;
          info <- call (DISCONNECT_REQ (appl_id s) 1 (plci c)) ;;
          if negb (info =? 0) then
            update conn (set_state STATE_IDLE) ;;;
            connection_status conn info
          else
            update conn (set_state STATE_DISCONNECT_ACTIVE)
      | STATE_CONNECT_B3_WAIT
      | STATE_CONNECTED =>
          s <- the_session ;;
          info <- call (DISCONNECT_B3_REQ (appl_id s) 1 (ncci c)) ;;
          if negb (info =? 0) then
            s <- the_session ;;
            info <- call (DISCONNECT_REQ (appl_id s) 1 (plci c)) ;;
            if negb (info =? 0) then
              update conn (set_state STATE_IDLE) ;;;
              connection_status conn info
            else
              update conn (set_state STATE_DISCONNECT_ACTIVE)
          else
            update conn (set_state STATE_DISCONNECT_B3_REQ)
      | STATE_RINGING =>
          s <- the_session ;;
          n <- next_message_number ;;
          info <- call (CONNECT_RESP (appl_id s) n (plci c) 3 0 0 0 None) ;;
          update conn (set_state STATE_IDLE) ;;;
          when (negb (info =? 0)) (connection_status conn info)
      | STATE_IDLE => ret tt
      | STATE_UNEXPECTED code =>
          emit (debug "Unexpected state 0x%x on disconnect" code)
      end
  end.

(** *** Outbound call *)

(** The cells of [called_party_number[70]] that [capi_call] writes: cells 0
    to 68; cell 69 is never written. *)
Definition called_party_number (trg_no : cstring) : list Z :=
  [uchar (1 + Z.of_nat (length trg_no)); 128] ++ strncpy trg_no 67.

(** The cells of [calling_party_number[70]] that [capi_call] writes: cells
    0 to 68; cell 69 is never written. *)
Definition calling_party_number (src_no trg_no : cstring) (call_anonymous : Z) : list Z :=
  let intern := (first_char trg_no =? 42) || (first_char trg_no =? 35) in
  let presentation := if negb (call_anonymous =? 0) then 160 else 128 in
  if intern then [uchar (2 + 5); 0; presentation] ++ strncpy (literal "**981") 66
  else [uchar (2 + Z.of_nat (length src_no)); 0; presentation] ++ strncpy src_no 66.

(** [bc], [llc] and [hlc] as [capi_call] leaves them; [hlc] is written only
    for the CIP values 0x04 and 0x11. *)
Definition bearer_capability (trg_no : cstring) (cip : Z) : list Z :=
  let intern := (first_char trg_no =? 42) || (first_char trg_no =? 35) in
  if cip =? 17 then [0; 0; 0; 0]
  else if intern then [3; 224; 144; 163] else [0; 0; 0; 0].

Definition low_layer_compatibility (cip : Z) : list Z :=
  if cip =? 17 then [0; 0; 0] else [2; 128; 144].

Definition high_layer_compatibility (cip : Z) : list Z :=
  if cip =? 4 then [2; 145; 129]
  else if cip =? 17 then [0; 0; 0] else [].

Definition capi_call (controller : Z) (src_no trg_no : option cstring)
    (call_anonymous : Z) (type : session_type) (cip : Z)
    (b1_protocol b2_protocol b3_protocol : Z)
    (b1_configuration b2_configuration b3_configuration : bytes) : M (option nat) :=
  match trg_no with
  | None => crash NullPointer
  | Some trg =>
      w <- get ;;
      match session w with
      | NULL => ret None
      | PTR =>
          match src_no with
          | None => emit (debug "Wrong phone numbers!" 0) ;;; ret None
          | Some src =>
              if (length src <? 1)%nat || (length trg <? 1)%nat then
                emit (debug "Wrong phone numbers!" 0) ;;; ret None
              else
                connection <- capi_get_free_connection ;;
                match connection with
                | None => ret None
                | Some conn =>
                    capi_connection_set_type conn type ;;;
                    s <- the_session ;;
                    err <- call (CONNECT_REQ (appl_id s) 0 controller cip
                                   (called_party_number trg)
                                   (calling_party_number src trg call_anonymous)
                                   b1_protocol b2_protocol b3_protocol
                                   b1_configuration b2_configuration b3_configuration
                                   (bearer_capability trg cip)
                                   (low_layer_compatibility cip)
                                   (high_layer_compatibility cip)) ;;
                    if negb (err =? 0) then
                      emit (debug "(%d) Unable to send CONNECT_REQ!" err) ;;;
                      capi_set_free conn ;;;
                      ret None
                    else
                      update conn (set_target (Some trg)) ;;;
                      update conn (set_source (Some src)) ;;;
                      ret (Some conn)
                end
          end
      end
  end.

(** *** Pickup *)

Definition capi_pickup (connection : option nat) (type : session_type) : M Z :=
  conn <- deref connection ;;
  capi_connection_set_type conn type ;;;
  c <- load conn ;;
  if negb (state_eqb (state c) STATE_RINGING) then
    emit (debug "CAPI Pickup called, even if not ringing" 0) ;;;
    ret (-1)
  else
    s <- the_session ;;
    n <- next_message_number ;;
    call (CONNECT_RESP (appl_id s) n (plci c) 0 1 1 0 (Some [0; 0; 0; 0])) ;;;
    update conn (set_state STATE_INCOMING_WAIT) ;;;
    ret 0.

(** *** Lookup *)

Definition capi_find_plci (p : Z) : M (option nat) :=
  s <- the_session ;;
  ret (scan (fun c => plci c =? p) (connection s) 0).

Definition capi_find_new : M (option nat) :=
  s <- the_session ;;
  ret (scan (fun c => (plci c =? 0) && negb (type_eqb (type c) SESSION_NONE)) (connection s) 0).

Definition capi_find_ncci (n : Z) : M (option nat) :=
  s <- the_session ;;
  ret (scan (fun c => ncci c =? n) (connection s) 0).

(** *** Close *)

(** The body of the loop of [capi_close], from slot [index] on. *)
Fixpoint capi_close_slots (count index : nat) : M unit :=
  match count with
  | O => ret tt
  | S count' =>
      c <- load index ;;
      when (negb (is_free c))
           (capi_hangup (Some index) ;;; emit (g_usleep 25)) ;;;
      capi_close_slots count' (S index)
  end.

Definition capi_close : M Z :=
  w <- get ;;
  match session w with
  | NULL => ret 0
  | PTR =>
      if negb (appl_id (heap w) =? -1) then
        capi_close_slots (length (connection (heap w))) 0 ;;;
        s <- the_session ;;
        call (CAPI20_RELEASE (appl_id s)) ;;;
        modify (fun w => set_heap (set_appl_id (-1) (heap w)) w) ;;;
        ret 0
      else ret 0
  end.

Definition capi_resp_connection (plci ignore : Z) : M unit :=
  if ignore =? 0 then
    s <- the_session ;;
    call (ALERT_REQ (appl_id s) 0 plci) ;;;
    ret tt
  else
    s <- the_session ;;
    n <- next_message_number ;;
    call (CONNECT_RESP (appl_id s) n plci ignore 1 1 0 None) ;;;
    ret tt.

Definition capi_enable_dtmf (conn : nat) : M unit :=
  c <- load conn ;;
  s <- the_session ;;
  call (FACILITY_REQ (appl_id s) 0 (plci c) 1 [10; 1; 0; 64; 0; 64; 0; 0; 2; 0; 0]) ;;;
  ret tt.

(** [connection_code] only prints the code. *)
Definition capi_get_dtmf_code (conn : nat) (dtmf : Z) : M unit :=
  if dtmf =? 0 then ret tt
  else if negb ((48 <=? dtmf) && (dtmf <=? 57)) && (negb (dtmf =? 35) && negb (dtmf =? 42))
  then ret tt
  else emit (debug "connection_code(): code 0x%x" dtmf).

(** *** Indications *)

(** [rm_audio_open] for a phone connection; [message] tells whether the
    failure is also reported with [rm_object_emit_message]. *)
Definition open_audio (conn : nat) (message : bool) : M bool :=
  w <- get ;;
  emit rm_audio_open ;;;
  update conn (set_audio (audio_handle E (trace w))) ;;;
  match audio_handle E (trace w) with
  | Some _ => ret true
  | None =>
      emit (debug "Could not open audio. Hangup" 0) ;;;
      when message (emit (rm_object_emit_message "Audio error" "Could not open audio. Hangup")) ;;;
      capi_hangup (Some conn) ;;;
      update conn (set_audio None) ;;;
      ret false
  end.

(** The wait [do g_usleep(10); while (session->input_thread_state != 0)] for
    the audio input worker, which resets the counter after some polls. *)
Fixpoint spin (polls : nat) : M unit :=
  match polls with
  | O => emit (g_usleep 10)
  | S polls' => emit (g_usleep 10) ;;; spin polls'
  end.

Definition indication_CONNECT (capi_message : _cmsg) : M unit :=
  let plci := adr capi_message in
  let cip := CIPValue capi_message in
  source_phone_number <- lift (capi_get_source_no capi_message) ;;
  target_phone_number <- lift (capi_get_target_no capi_message) ;;
  let reject := negb (cip =? 16) && negb (cip =? 1) && negb (cip =? 4) && negb (cip =? 17) in
  let ignore := if ACCEPT_INTERN
                then reject && negb (bool_decide (take 2 (c_str source_phone_number) = [42; 42]))
                else reject in
  if ignore then capi_resp_connection plci 1
  else
    connection <- capi_get_free_connection ;;
    conn <- deref connection ;;
    update conn (set_type SESSION_NONE) ;;;
    update conn (set_state STATE_RINGING) ;;;
    update conn (set_plci plci) ;;;
    update conn (set_source (Some (c_str source_phone_number))) ;;;
    update conn (set_target (Some (c_str target_phone_number))) ;;;
    capi_resp_connection plci 0.

Definition indication_CONNECT_ACTIVE (capi_message : _cmsg) : M unit :=
  let plci := adr capi_message in
  s <- the_session ;;
  n <- next_message_number ;;
  call (CONNECT_ACTIVE_RESP (appl_id s) n plci) ;;;
  connection <- capi_find_plci plci ;;
  match connection with
  | None => emit (debug "Wrong PLCI 0x%x" plci)
  | Some conn =>
      c <- load conn ;;
      if state_eqb (state c) STATE_INCOMING_WAIT then
        w <- get ;;
        update conn (set_connect_time (time E (trace w))) ;;;
        update conn (set_state STATE_CONNECT_ACTIVE) ;;;
        if type_eqb (type c) SESSION_PHONE then
          open_audio conn false ;;; ret tt
        else ret tt
      else if early_b3 c =? 0 then
        s <- the_session ;;
        info <- call (CONNECT_B3_REQ (appl_id s) 0 plci) ;;
        if negb (info =? 0) then
          connection_status conn info ;;;
          capi_hangup (Some conn)
        else
          w <- get ;;
          update conn (set_connect_time (time E (trace w))) ;;;
          update conn (set_state STATE_CONNECT_ACTIVE) ;;;
          if type_eqb (type c) SESSION_PHONE then
            open_audio conn true ;;; ret tt
          else ret tt
      else ret tt
  end.

Definition indication_CONNECT_B3 (capi_message : _cmsg) : M unit :=
  let ncci := adr capi_message in
  let plci := Z.land ncci 65535 in
  connection <- capi_find_plci plci ;;
  match connection with
  | None => ret tt
  | Some conn =>
      s <- the_session ;;
      n <- next_message_number ;;
      call (CONNECT_B3_RESP (appl_id s) n ncci 0) ;;;
      c <- load conn ;;
      if state_eqb (state c) STATE_CONNECT_ACTIVE then
        update conn (set_ncci ncci) ;;;
        update conn (set_state STATE_CONNECT_B3_WAIT)
      else capi_hangup (Some conn)
  end.

Definition indication_CONNECT_B3_ACTIVE (capi_message : _cmsg) : M unit :=
  let ncci := adr capi_message in
  let plci := Z.land ncci 65535 in
  let ncpi := NCPI capi_message in
  connection <- capi_find_plci plci ;;
  match connection with
  | None => emit (debug "Wrong NCCI, got 0x%x" ncci)
  | Some conn =>
      update conn (set_ncci ncci) ;;;
      len <- lift (peek ncpi 0) ;;
      copy <- lift (peek_block ncpi 0 (Z.to_nat (len + 1))) ;;
      update conn (set_ncpi (Some copy)) ;;;
      s <- the_session ;;
      n <- next_message_number ;;
      call (CONNECT_B3_ACTIVE_RESP (appl_id s) n ncci) ;;;
      update conn (set_state STATE_CONNECTED) ;;;
      capi_enable_dtmf conn ;;;
      c <- load conn ;;
      match init_data c with
      | Some h => invoke h conn
      | None => ret tt
      end ;;;
      capi_connection_connect conn
  end.

Definition indication_DATA_B3 (capi_message : _cmsg) : M unit :=
  connection <- capi_find_ncci (adr capi_message) ;;
  match connection with
  | None => crash AssertionFailed
  | Some conn =>
      c <- load conn ;;
      match data c with
      | None => crash NullPointer
      | Some h => invoke h conn
      end ;;;
      s <- the_session ;;
      n <- next_message_number ;;
      c <- load conn ;;
      call (DATA_B3_RESP (appl_id s) n (ncci c) (DataHandle capi_message)) ;;;
      ret tt
  end.

Definition indication_FACILITY (capi_message : _cmsg) : M unit :=
  let ncci := adr capi_message in
  let plci := Z.land ncci 65535 in
  let parameter := FacilityIndicationParameter capi_message in
  s <- the_session ;;
  n <- next_message_number ;;
  call (FACILITY_RESP (appl_id s) n plci (FacilitySelector capi_message) parameter) ;;;
  connection <- capi_find_plci plci ;;
  match connection with
  | None => ret tt
  | Some conn =>
      if FacilitySelector capi_message =? 1 then
        dtmf <- lift (peek parameter 1) ;;
        capi_get_dtmf_code conn dtmf
      else if FacilitySelector capi_message =? 3 then
        p1 <- lift (peek parameter 1) ;;
        p3 <- lift (peek parameter 3) ;;
        let nTmp := Z.lor p1 (Z.shiftl p3 8) in
        if nTmp =? 515 then
          s <- the_session ;;
          info <- call (CONNECT_B3_REQ (appl_id s) 0 plci) ;;
          if negb (info =? 0) then
            connection_status conn info ;;;
            capi_hangup (Some conn)
          else update conn (set_state STATE_CONNECT_ACTIVE)
        else if nTmp =? 514 then ret tt
        else emit (debug "FACILITY: Unknown %x" nTmp)
      else emit (debug "Unhandled facility selector!! %x" (FacilitySelector capi_message))
  end.

Definition indication_INFO (capi_message : _cmsg) : M unit :=
  let plci := adr capi_message in
  let info := InfoNumber capi_message in
  s <- the_session ;;
  n <- next_message_number ;;
  call (INFO_RESP (appl_id s) n plci) ;;;
  info_element <- lift (peek_block (InfoElement capi_message) 0 128) ;;
  (if info =? 32837 then
     connection <- capi_find_plci plci ;;
     match connection with
     | None => ret tt
     | Some conn =>
         c <- load conn ;;
         if state_eqb (state c) STATE_CONNECTED && type_eqb (type c) SESSION_FAX
         then ret tt
         else capi_hangup (Some conn)
     end
   else ret tt) ;;;
  connection <- capi_find_plci plci ;;
  match connection with
  | None => ret tt
  | Some conn =>
      c <- load conn ;;
      if negb (early_b3 c =? 0) && state_eqb (state c) STATE_CONNECT_WAIT && (info =? 30) then
        s <- the_session ;;
        call (CONNECT_B3_REQ (appl_id s) 0 plci) ;;;
        w <- get ;;
        update conn (set_connect_time (time E (trace w))) ;;;
        if type_eqb (type c) SESSION_PHONE then
          opened <- open_audio conn true ;;
          when opened (update conn (set_state STATE_CONNECT_ACTIVE))
        else update conn (set_state STATE_CONNECT_ACTIVE)
      else ret tt
  end.

Definition indication_DISCONNECT_B3 (capi_message : _cmsg) : M unit :=
  let ncci := adr capi_message in
  s <- the_session ;;
  n <- next_message_number ;;
  call (DISCONNECT_B3_RESP (appl_id s) n ncci) ;;;
  connection <- capi_find_ncci ncci ;;
  match connection with
  | None => emit (debug "connection not found" 0)
  | Some conn =>
      update conn (set_reason_b3 (Reason_B3 capi_message)) ;;;
      update conn (set_ncci 0) ;;;
      c <- load conn ;;
      if state_eqb (state c) STATE_CONNECTED || state_eqb (state c) STATE_CONNECT_B3_WAIT
      then update conn (set_state STATE_DISCONNECT_ACTIVE)
      else capi_hangup (Some conn)
  end.

(** The teardown of the call kind on the terminal disconnect indication. *)
Definition teardown (conn : nat) : M unit :=
  c <- load conn ;;
  match type c with
  | SESSION_PHONE =>
      s <- the_session ;;
      (if input_thread_state s =? 1 then
         modify (fun w => set_heap (set_input_thread_state (input_thread_state s + 1) (heap w)) w) ;;;
         w <- get ;;
         spin (input_thread_polls E (trace w)) ;;;
         modify (fun w => set_heap (set_input_thread_state 0 (heap w)) w)
       else ret tt) ;;;
      emit (rm_audio_close (audio c))
  | _ => ret tt
  end.

Definition indication_DISCONNECT (capi_message : _cmsg) : M unit :=
  let plci := adr capi_message in
  s <- the_session ;;
  n <- next_message_number ;;
  call (DISCONNECT_RESP (appl_id s) n plci) ;;;
  connection <- capi_find_plci plci ;;
  match connection with
  | None => emit (debug "Connection not found, IGNORING" 0)
  | Some conn =>
      update conn (set_reason (Reason capi_message)) ;;;
      update conn (set_state STATE_IDLE) ;;;
      update conn (set_ncci 0) ;;;
      update conn (set_plci 0) ;;;
      teardown conn ;;;
      capi_connection_disconnect conn ;;;
      capi_set_free conn ;;;
      ret tt
  end.

Definition capi_indication (capi_message : _cmsg) : M Z :=
  match Command capi_message with
  | CAPI_CONNECT => indication_CONNECT capi_message
  | CAPI_CONNECT_ACTIVE => indication_CONNECT_ACTIVE capi_message
  | CAPI_CONNECT_B3 => indication_CONNECT_B3 capi_message
  | CAPI_CONNECT_B3_ACTIVE => indication_CONNECT_B3_ACTIVE capi_message
  | CAPI_DATA_B3 => indication_DATA_B3 capi_message
  | CAPI_FACILITY => indication_FACILITY capi_message
  | CAPI_INFO => indication_INFO capi_message
  | CAPI_DISCONNECT_B3 => indication_DISCONNECT_B3 capi_message
  | CAPI_DISCONNECT => indication_DISCONNECT capi_message
  | CAPI_ALERT | CAPI_LISTEN | CAPI_command _ =>
      emit (debug "Unhandled command 0x%x" (command_code (Command capi_message)))
  end ;;;
  ret 0.

(** *** Confirmations *)

Definition confirmation_ALERT (capi_message : _cmsg) : M unit :=
  let info := Info capi_message in
  let plci := adr capi_message in
  connection <- capi_find_plci plci ;;
  if negb (info =? 0) && negb (info =? 3) then
    match connection with
    | Some conn => update conn (set_state STATE_IDLE)
    | None => ret tt
    end
  else connection_ring connection.

Definition confirmation_DATA_B3 (capi_message : _cmsg) : M unit :=
  connection <- capi_find_ncci (adr capi_message) ;;
  match connection with
  | Some conn =>
      c <- load conn ;;
      when (negb (use_buffers c =? 0) && negb (buffers c =? 0))
           (update conn (set_buffers (buffers c - 1)))
  | None => ret tt
  end.

Definition confirmation_CONNECT (capi_message : _cmsg) : M unit :=
  let plci := adr capi_message in
  let info := Info capi_message in
  connection <- capi_find_new ;;
  match connection with
  | None =>
      emit (debug "CND: CAPI_CONNECT - Warning! Received confirmation but we didn't requested a connect!!!" 0)
  | Some conn =>
      if negb (info =? 0) then
        update conn (set_state STATE_IDLE) ;;;
        connection_status conn info ;;;
        capi_set_free conn ;;;
        ret tt
      else
        update conn (set_plci plci) ;;;
        update conn (set_state STATE_CONNECT_WAIT)
  end.

Definition capi_confirmation (capi_message : _cmsg) : M unit :=
  match Command capi_message with
  | CAPI_ALERT => confirmation_ALERT capi_message
  | CAPI_DATA_B3 => confirmation_DATA_B3 capi_message
  | CAPI_CONNECT => confirmation_CONNECT capi_message
  | CAPI_FACILITY | CAPI_LISTEN | CAPI_INFO | CAPI_CONNECT_B3
  | CAPI_DISCONNECT | CAPI_DISCONNECT_B3 => ret tt
  | CAPI_CONNECT_ACTIVE | CAPI_CONNECT_B3_ACTIVE | CAPI_command _ =>
      emit (debug "Unhandled confirmation, command 0x%x" (command_code (Command capi_message)))
  end.

(** *** Registration *)

(** The loop [for (index = start; index <= end; index++)] of [capi_init]:
    [Some rc] when a LISTEN_REQ fails. *)
Fixpoint capi_init_listen (count : nat) (appl index : Z) : M (option Z) :=
  match count with
  | O => ret None
  | S count' =>
      error_code <- call (LISTEN_REQ appl 0 index 1023 536806399 0) ;;
      if negb (error_code =? 0) then ret (Some error_code)
      else capi_init_listen count' appl (index + 1)
  end.

Definition capi_init (controller : Z) : M Z :=
  error_code <- call CAPI20_ISINSTALLED ;;
  if negb (error_code =? 0) then ret (-1)
  else
    w <- get ;;
    error_code <- call (CAPI20_GET_PROFILE 0) ;;
    if negb (error_code =? 0) then ret (-1)
    else
      let num_controllers := capi20_ncontroller E (trace w) in
      if num_controllers =? 0 then ret (-1)
      else
        let start := if controller <=? 0 then 1 else controller in
        let end_ := if controller <=? 0 then num_controllers else controller in
        w <- get ;;
        error_code <- call CAPI20_REGISTER ;;
        let appl_id := capi20_appl_id E (trace w) in
        if negb (error_code =? 0) || (appl_id =? 0) then ret (-2)
        else
          failed <- capi_init_listen (Z.to_nat (end_ - start + 1)) appl_id start ;;
          match failed with
          | Some _ => ret (-3)
          | None => ret appl_id
          end.

(** [capi_reconnect(session)], called with the global pointer. *)
Definition capi_reconnect : M unit :=
  capi_close ;;;
  appl <- capi_init (-1) ;;
  the_session ;;;
  modify (fun w => set_heap (set_appl_id appl (heap w)) w).

(** *** Dispatch loop *)

Inductive loop_status : Type :=
| loop_returned
| loop_running.

(** [capi_loop], cut after [fuel] iterations of its [while]. *)
Fixpoint capi_loop (fuel : nat) : M loop_status :=
  match fuel with
  | O => ret loop_running
  | S fuel' =>
      w <- get ;;
      if g_cancellable_is_cancelled E (trace w) then
        modify (set_session NULL) ;;;
        ret loop_returned
      else
        s <- the_session ;;
        r <- call (CAPI20_WaitforMessage (appl_id s)) ;;
        if r =? 0 then
          s <- the_session ;;
          w <- get ;;
          info <- call (capi_get_cmsg (appl_id s)) ;;
          let capi_message := capi20_message E (trace w) in
          if info =? 0 then
            match Subcommand capi_message with
            | CAPI_IND => capi_indication capi_message ;;; ret tt
            | CAPI_CONF => capi_confirmation capi_message
            | _ => ret tt
            end ;;;
            capi_loop fuel'
          else if info =? 4356 then
            emit (debug "Empty queue, even if message pending.. reconnecting" 0) ;;;
            emit (g_usleep 1000000) ;;;
            capi_reconnect ;;;
            capi_loop fuel'
          else ret loop_returned
        else
          w <- get ;;
          (if negb (g_cancellable_is_cancelled E (trace w)) then
             if match session w with NULL => true | PTR => appl_id (heap w) =? -1 end
             then emit (g_usleep 1000000)
             else emit (g_usleep 1)
           else ret tt) ;;;
          capi_loop fuel'
  end.

End Model.

(** ** Allocate/release sequences *)

Inductive pool_op : Type :=
| allocate
| release (conn : nat).

Definition pool_step (E : environment) (o : pool_op) : M unit :=
  match o with
  | allocate => capi_get_free_connection ;;; ret tt
  | release conn => capi_set_free E conn ;;; ret tt
  end.

Fixpoint pool_run (E : environment) (ops : list pool_op) : M unit :=
  match ops with
  | [] => ret tt
  | o :: rest => pool_step E o ;;; pool_run E rest
  end.

(** The table of a session has [CAPI_CONNECTIONS] slots. *)
Definition pool_wf (CAPI_CONNECTIONS : nat) (w : world) : Prop :=
  length (connection (heap w)) = CAPI_CONNECTIONS.

(** A released pointer points into the table. *)
Definition valid_op (CAPI_CONNECTIONS : nat) (o : pool_op) : Prop :=
  match o with
  | allocate => True
  | release conn => (conn < CAPI_CONNECTIONS)%nat
  end.

(** ** Vocabulary of the properties *)

(** What attaching the idle source [cb] for connection [c] appends to the
    trace [t]: nothing when the application does not know the id. *)
Definition posted (E : environment) (cb : callback) (t : list event) (c : capi_connection) : list event :=
  match rm_connection_find_by_id E t (id c) with
  | Some connection => [idle cb connection]
  | None => []
  end.

(** The CAPI primitives called in a trace. *)
Fixpoint wire_requests (t : list event) : list request :=
  match t with
  | [] => []
  | wire r :: rest => r :: wire_requests rest
  | _ :: rest => wire_requests rest
  end.

(** The states in which [capi_hangup] sends a disconnect request. *)
Definition is_active (s : conn_state) : bool :=
  match s with
  | STATE_CONNECT_WAIT | STATE_CONNECT_ACTIVE | STATE_CONNECT_B3_WAIT
  | STATE_CONNECTED | STATE_DISCONNECT_B3_REQ | STATE_DISCONNECT_B3_WAIT
  | STATE_DISCONNECT_ACTIVE | STATE_INCOMING_WAIT => true
  | _ => false
  end.

Definition is_disconnecting (s : conn_state) : bool :=
  match s with
  | STATE_DISCONNECT_B3_REQ | STATE_DISCONNECT_B3_WAIT | STATE_DISCONNECT_ACTIVE => true
  | _ => false
  end.

(** The slot [conn] of the table. *)
Definition slot (w : world) (conn : nat) : option capi_connection :=
  connection (heap w) !! conn.

(** The call indicators that the connect indication accepts. *)
Definition accepted_cip (cip : Z) : bool :=
  (cip =? 16) || (cip =? 1) || (cip =? 4) || (cip =? 17).

(** Some slot of the table is free. *)
Definition has_free (w : world) : Prop :=
  exists conn c, slot w conn = Some c /\ is_free c = true.



(** What releasing the slot of [c] appends to the trace: the call of the
    cleanup hook when private data is attached and a hook is bound, the
    warning when private data is attached and no hook is bound. *)
Definition release_events (c : capi_connection) : list event :=
  match priv c with
  | Some _ =>
      match clean c with
      | Some h => [hook h (id c)]
      | None => [debug "Warning: Private data but no clean function" 0]
      end
  | None => []
  end.

(** The connection record after [capi_connection_set_type]. *)
Definition rebind (t : session_type) (c : capi_connection) : capi_connection :=
  match t with
  | SESSION_PHONE =>
      set_early_b3 1 (set_clean None (set_data (Some capi_phone_data)
        (set_init_data (Some capi_phone_init_data) (set_type t c))))
  | SESSION_FAX =>
      set_early_b3 0 (set_clean (Some capi_fax_clean) (set_data (Some capi_fax_data)
        (set_init_data (Some capi_fax_init_data) (set_type t c))))
  | _ => set_type t c
  end.

(** What [capi_connection_set_type] appends to the trace. *)
Definition rebind_events (t : session_type) : list event :=
  match t with
  | SESSION_PHONE | SESSION_FAX => []
  | _ => [debug "Unhandled session type!!" 0]
  end.

(** The world with slot [conn] of the table replaced. *)
Definition with_slot (conn : nat) (c : capi_connection) (w : world) : world :=
  set_heap (set_connection (<[conn := c]> (connection (heap w))) (heap w)) w.


(** What [connection_ring] appends to the trace [t] for the connection [c]
    with target [trg]: the registration of the call under the number that
    follows the first hash sign of the target, and the idle source of the
    incoming notification when the registration yields a connection. *)
Definition ring_events (E : environment) (t : list event) (c : capi_connection) (trg : cstring) : list event :=
  rm_connection_add (id c) (default trg (after_char 35 trg)) (default [] (source c)) ::
  match rm_connection_new E t (id c) with
  | Some connection => [idle emit_incoming connection]
  | None => []
  end.

(** ** Sample environments and worlds *)

Definition empty_message : _cmsg :=
  mk_cmsg (CAPI_command 0) CAPI_REQ 0 0 0 None None 0 None 0 None None 0 0 0.

(** A transport that accepts every request; the application knows every
    connection under its own id. *)
Definition accepting : environment :=
  mk_environment (fun _ _ => 0) (fun _ => empty_message) (fun _ => 1) (fun _ => 1)
                 (fun _ => false) (fun _ i => Some i) (fun _ i => Some i)
                 (fun _ => Some 1) (fun _ => 0) (fun _ c => c) (fun _ => O).

(** A transport that refuses every request with 0x2001. *)
Definition refusing : environment :=
  mk_environment (fun _ _ => 8193) (fun _ => empty_message) (fun _ => 1) (fun _ => 1)
                 (fun _ => false) (fun _ i => Some i) (fun _ i => Some i)
                 (fun _ => Some 1) (fun _ => 0) (fun _ c => c) (fun _ => O).


(** A table of two occupied slots: a fax call that is connected and holds
    private data, and a phone call that waits for the connect
    confirmation to be followed by the active indication. *)
Definition fax_call : capi_connection :=
  mk_connection 1024 257 65793 STATE_CONNECTED SESSION_FAX 0
                (Some capi_fax_init_data) (Some capi_fax_data) (Some capi_fax_clean)
                (Some 1) (Some (literal "5551234")) (Some (literal "12345")) 0 None None 0 0 0 0.

Definition phone_call : capi_connection :=
  mk_connection 1025 513 0 STATE_CONNECT_WAIT SESSION_PHONE 1
                (Some capi_phone_init_data) (Some capi_phone_data) None
                None (Some (literal "5551234")) (Some (literal "67890")) 0 None None 0 0 0 0.

Definition busy : world :=
  mk_world PTR (mk_session 1 7 0 [fax_call; phone_call]) 1026 [].

(** Messages of the controller. *)
Definition connect_ind (plci cip : Z) (calling called : bytes) : _cmsg :=
  mk_cmsg CAPI_CONNECT CAPI_IND plci 0 cip calling called 0 None 0 None None 0 0 0.

Definition disconnect_ind (plci reason : Z) : _cmsg :=
  mk_cmsg CAPI_DISCONNECT CAPI_IND plci 0 0 None None 0 None 0 None None reason 0 0.


Definition alert_conf (plci info : Z) : _cmsg :=
  mk_cmsg CAPI_ALERT CAPI_CONF plci info 0 None None 0 None 0 None None 0 0 0.

(** An inbound voice call from 5551234 to 12345 on PLCI 0x301. *)
Definition inbound : _cmsg :=
  connect_ind 769 16 (Some [9; 0; 128; 53; 53; 53; 49; 50; 51; 52])
              (Some [6; 128; 49; 50; 51; 52; 53]).

(** A session with [n] zeroed slots, as [capi_session_init] leaves it. *)
Definition fresh (n : nat) : world :=
  mk_world PTR (mk_session 1 0 0 (replicate n zero_connection)) 1024 [].

Definition connect_b3_active_ind (ncci : Z) (ncpi : bytes) : _cmsg :=
  mk_cmsg CAPI_CONNECT_B3_ACTIVE CAPI_IND ncci 0 0 None None 0 None 0 None ncpi 0 0 0.


(** ** Vocabulary of the further properties *)

(** What no handler of the call state machine undoes: the session pointer,
    the application id and the number of slots stay, the message number
    does not decrease, and the trace is only appended to. *)
Definition stable (w w' : world) : Prop :=
  session w' = session w /\
  appl_id (heap w') = appl_id (heap w) /\
  length (connection (heap w')) = length (connection (heap w)) /\
  message_number (heap w) <= message_number (heap w') /\
  exists t, trace w' = trace w ++ t.

(** A computation keeps the world stable whether it returns or stops on a
    fault. *)
Definition keeps {A : Type} (m : M A) : Prop :=
  forall w, match m w with
            | Ok _ w' => stable w w'
            | Crash _ w' => stable w w'
            end.



(** The LISTEN_REQ of [capi_init] for one controller. *)
Definition listen (appl index : Z) : event :=
  wire (LISTEN_REQ appl 0 index 1023 536806399 0).



(** The C string that a decoder leaves in its buffer. *)
Definition decoded (r : result (list Z)) : option cstring :=
  match r with
  | Val number => Some (c_str number)
  | Err _ => None
  end.

(** ** Sending DTMF *)

(** [capi_send_dtmf_code]: of [facility[32]] the cells 0 to 8 are written. *)
Definition capi_send_dtmf_code (E : environment) (conn : nat) (dtmf : Z) : M unit :=
  c <- load conn ;;
  s <- the_session ;;
  call E (FACILITY_REQ (appl_id s) 0 (ncci c) 1 [8; 3; 0; 48; 0; 48; 0; 1; dtmf]) ;;;
  ret tt.

(** ** The session of the plugin *)

(** The calls of [capi_session_init] and [capi_session_close] into the
    transport library and GLib, other than the CAPI primitives. A
    [GCancellable] is named by the number of cancellables created before
    it. *)
Inductive setup : Type :=
| capi20ext_set_driver (driver : string)
| capi20ext_set_host (host : cstring)
| capi20ext_set_port (port : Z)
| capi20ext_set_tracelevel (level : Z)
| create_table_buffer
| g_mutex_init
| g_cancellable_new (cancellable : nat)
| g_main_context_get_thread_default
| g_thread_new (name : string) (cancellable : nat)
| g_cancellable_cancel (cancellable : nat).

(** The globals of [capi.c]: those of [world], the pointers
    [capi_loop_cancel] and [main_context], and the calls above in the
    order in which they were made. *)
Record plugin : Type := mk_plugin {
  globals : world;
  capi_loop_cancel : option nat;
  main_context : bool;
  setup_log : list setup
}.

Definition set_globals (v : world) (p : plugin) : plugin :=
  mk_plugin v (capi_loop_cancel p) (main_context p) (setup_log p).
Definition set_capi_loop_cancel (v : option nat) (p : plugin) : plugin :=
  mk_plugin (globals p) v (main_context p) (setup_log p).
Definition set_main_context (v : bool) (p : plugin) : plugin :=
  mk_plugin (globals p) (capi_loop_cancel p) v (setup_log p).
Definition record_setup (calls : list setup) (p : plugin) : plugin :=
  mk_plugin (globals p) (capi_loop_cancel p) (main_context p) (setup_log p ++ calls).

Inductive returned (A : Type) : Type :=
| Done (a : A) (p : plugin)
| Fault (f : fault) (p : plugin).
Arguments Done {A} a p.
Arguments Fault {A} f p.

(** A function of the call state machine, run on the globals. *)
Definition within {A : Type} (m : M A) (p : plugin) : returned A :=
  match m (globals p) with
  | Ok a w => Done a (set_globals w p)
  | Crash f w => Fault f (set_globals w p)
  end.

(** The cancellables created so far. *)
Fixpoint created (log : list setup) : nat :=
  match log with
  | [] => O
  | g_cancellable_new _ :: rest => S (created rest)
  | _ :: rest => created rest
  end.

(** [g_slice_alloc0(sizeof(struct session))] for a table of
    [CAPI_CONNECTIONS] slots. *)
Definition g_slice_alloc0 (CAPI_CONNECTIONS : nat) : session_t :=
  mk_session 0 0 0 (replicate CAPI_CONNECTIONS zero_connection).

Definition capi_session_init (E : environment) (CAPI_CONNECTIONS : nat)
    (host : option cstring) (controller : Z) (p : plugin) : returned pointer :=
  match session (globals p) with
  | PTR => Done PTR p
  | NULL =>
      let p := match host with
               | Some h =>
                   record_setup [capi20ext_set_driver "fritzbox"; capi20ext_set_host h;
                                 capi20ext_set_port 5031; capi20ext_set_tracelevel 0] p
               | None => p
               end in
      match within (capi_init E controller) p with
      | Fault f p => Fault f p
      | Done appl_id p =>
          if appl_id <=? 0 then
            within (emit (debug "Initialization failed! Error %d!" appl_id) ;;; ret NULL) p
          else
            let p := record_setup [create_table_buffer] p in
            let p := set_globals
                       (set_session PTR (set_heap (g_slice_alloc0 CAPI_CONNECTIONS) (globals p)))
                       p in
            let p := record_setup [g_mutex_init] p in
            let p := set_globals
                       (set_heap (set_appl_id appl_id (heap (globals p))) (globals p)) p in
            let cancellable := created (setup_log p) in
            let p := set_capi_loop_cancel (Some cancellable)
                       (record_setup [g_cancellable_new cancellable] p) in
            let p := set_main_context true
                       (record_setup [g_main_context_get_thread_default] p) in
            let p := record_setup [g_thread_new "capi" cancellable] p in
            Done PTR p
      end
  end.


Definition capi_get_session (p : plugin) : pointer := session (globals p).


(** A plugin that has not been initialized. *)
Definition unloaded : plugin :=
  mk_plugin (set_session NULL (fresh 0)) None false [].


(** The cancellables of the threads started so far. *)
Fixpoint started (log : list setup) : list nat :=
  match log with
  | [] => []
  | g_thread_new _ cancellable :: rest => cancellable :: started rest
  | _ :: rest => started rest
  end.
(** ** Properties *)

(** *** The loops over the table *)

Lemma scan_Some (p : capi_connection -> bool) (table : list capi_connection) (i k : nat) :
  scan p table i = Some k ->
  exists j c, k = (i + j)%nat /\ table !! j = Some c /\ p c = true /\
    forall j' c', (j' < j)%nat -> table !! j' = Some c' -> p c' = false.
Proof.
  revert i. induction table as [|c table IH]; intros i H; simpl in H; [discriminate|].
  destruct (p c) eqn:Hp.
  - injection H as <-. exists O, c.
    split; [lia|]. split; [done|]. split; [done|]. intros; lia.
  - destruct (IH _ H) as (j & c' & -> & Hl & Hc & Hmin).
    exists (S j), c'. split; [lia|]. split; [done|]. split; [done|].
    intros [|j'] c'' Hlt Hj'; simpl in Hj'; [congruence|].
    apply (Hmin j'); [lia|done].
Qed.

Lemma scan_None (p : capi_connection -> bool) (table : list capi_connection) (i : nat) :
  scan p table i = None <-> Forall (fun c => p c = false) table.
Proof.
  revert i. induction table as [|c table IH]; intros i; simpl.
  - split; [constructor|done].
  - destruct (p c) eqn:Hp.
    + split; [discriminate|]. intros H. inversion H; congruence.
    + rewrite IH. split; [by constructor|]. intros H. by inversion H.
Qed.

Lemma scan_first (p : capi_connection -> bool) (table : list capi_connection) (j : nat) (c : capi_connection) :
  table !! j = Some c -> p c = true ->
  (forall j' c', (j' < j)%nat -> table !! j' = Some c' -> p c' = false) ->
  forall i, scan p table i = Some (i + j)%nat.
Proof.
  revert j. induction table as [|c0 table IH]; intros j Hl Hp Hmin i; [done|].
  destruct j as [|j]; simpl in *.
  - injection Hl as ->. rewrite Hp. f_equal. lia.
  - rewrite (Hmin O c0); [|lia|done].
    rewrite (IH j Hl Hp); [f_equal; lia|].
    intros j' c' Hlt Hj'. apply (Hmin (S j') c'); [lia|done].
Qed.

Lemma occupied_le (table : list capi_connection) :
  (occupied table <= length table)%nat.
Proof. unfold occupied. apply List.filter_length_le. Qed.

(** *** Steps of the monad *)

Ltac step :=
  cbv beta iota delta
    [bind ret get modify emit crash when load store update deref lift
     the_session next_message_number call invoke] in *;
  cbn [session heap unique_id trace set_session set_heap set_unique_id set_trace
       connection appl_id message_number input_thread_state
       set_connection set_appl_id set_message_number set_input_thread_state] in *.

Lemma get_free_full (w : world) :
  pool_full w -> capi_get_free_connection w = Ok None w.
Proof.
  intros Hfull. unfold capi_get_free_connection. step.
  destruct (session w); [done|].
  by rewrite (proj2 (scan_None is_free _ 0) Hfull).
Qed.

Lemma get_free_length (w : world) :
  exists r w', capi_get_free_connection w = Ok r w' /\
    length (connection (heap w')) = length (connection (heap w)).
Proof.
  unfold capi_get_free_connection. step.
  destruct (session w); [by eauto|].
  destruct (scan is_free _ 0) as [i|] eqn:Hscan; [|by eauto].
  apply scan_Some in Hscan as (j & c & -> & Hl & _). simpl. step.
  rewrite Hl. simpl. rewrite list_lookup_insert_eq; [|by eapply lookup_lt_Some].
  eexists _, _. split; [done|]. simpl. by rewrite !length_insert.
Qed.

Lemma set_free_length (E : environment) (conn : nat) (w : world) :
  (conn < length (connection (heap w)))%nat ->
  exists w', capi_set_free E conn w = Ok 0 w' /\
    length (connection (heap w')) = length (connection (heap w)) /\
    connection (heap w') !! conn = Some zero_connection.
Proof.
  intros Hlt. destruct (lookup_lt_is_Some_2 _ _ Hlt) as [c Hc].
  unfold capi_set_free. step. rewrite Hc.
  destruct (priv c); [destruct (clean c)|]; step; rewrite ?Hc; simpl;
    eexists; (split; [done|]); simpl; rewrite ?length_insert;
    (split; [done|]); rewrite list_lookup_insert_eq; rewrite ?length_insert; done.
Qed.

(** C2. For every sequence of allocate and release operations on a table of
    CAPI_CONNECTIONS slots the sequence runs to its end, at most
    CAPI_CONNECTIONS slots are occupied afterwards, and an allocate on a
    table without a free slot returns no connection and leaves the world,
    the table included, as it was. *)
Theorem pool_bounded (E : environment) (CAPI_CONNECTIONS : nat) (ops : list pool_op) (w : world) :
  pool_wf CAPI_CONNECTIONS w ->
  Forall (valid_op CAPI_CONNECTIONS) ops ->
  exists w', pool_run E ops w = Ok tt w' /\
    pool_wf CAPI_CONNECTIONS w' /\
    (occupied (connection (heap w')) <= CAPI_CONNECTIONS)%nat /\
    (pool_full w' -> capi_get_free_connection w' = Ok None w').
Proof.
  intros Hwf Hops. revert w Hwf.
  induction Hops as [|o ops Ho _ IH]; intros w Hwf.
  - exists w. split; [done|]. split; [done|]. split; [|apply get_free_full].
    rewrite <- Hwf. apply occupied_le.
  - destruct o as [|conn]; simpl in *.
    + destruct (get_free_length w) as (r & w1 & Hrun & Hlen).
      destruct (IH w1) as (w' & Hrest & H'); [unfold pool_wf in *; congruence|].
      exists w'. split; [|done]. unfold bind at 1. unfold bind at 1. by rewrite Hrun.
    + destruct (set_free_length E conn w) as (w1 & Hrun & Hlen & _);
        [unfold pool_wf in Hwf; lia|].
      destruct (IH w1) as (w' & Hrest & H'); [unfold pool_wf in *; congruence|].
      exists w'. split; [|done]. unfold bind at 1. unfold bind at 1. by rewrite Hrun.
Qed.

Lemma pool_bounded_witness :
  exists w', pool_run accepting [allocate; release 1%nat; allocate] busy = Ok tt w' /\
    pool_wf 2 w' /\
    (occupied (connection (heap w')) <= 2)%nat /\
    (pool_full w' -> capi_get_free_connection w' = Ok None w').
Proof.
  apply (pool_bounded accepting 2 [allocate; release 1%nat; allocate] busy).
  - reflexivity.
  - repeat constructor.
Defined.

(** *** Symbolic execution *)

Lemma lookup_insert_same {A : Type} (l : list A) (i : nat) (x y : A) :
  l !! i = Some x -> <[i := y]> l !! i = Some y.
Proof. intros H. apply list_lookup_insert_eq. by eapply lookup_lt_Some. Qed.

Ltac fields :=
  cbn [id plci ncci state type early_b3 init_data data clean priv source target
       connect_time audio ncpi reason reason_b3 use_buffers buffers
       set_id set_plci set_ncci set_state set_type set_early_b3 set_init_data
       set_data set_clean set_source set_target set_connect_time set_audio
       set_ncpi set_reason set_reason_b3 set_buffers
       session heap unique_id trace connection appl_id message_number
       input_thread_state set_session set_heap set_unique_id set_trace
       set_connection set_appl_id set_message_number set_input_thread_state
       negb andb orb] in *.

Ltac run H :=
  repeat (fields; step;
          rewrite ?list_insert_insert_eq, ?(lookup_insert_same _ _ _ _ H), ?H, ?Z.eqb_refl;
          try match goal with Hs : session _ = _ |- _ => rewrite Hs end;
          rewrite <- ?app_assoc; cbn [app]).

Lemma wire_requests_app (t1 t2 : list event) :
  wire_requests (t1 ++ t2) = wire_requests t1 ++ wire_requests t2.
Proof.
  induction t1 as [|e t1 IH]; [done|].
  destruct e; simpl; by rewrite ?IH.
Qed.

Lemma state_eqb_eq (a b : conn_state) : state_eqb a b = true <-> a = b.
Proof.
  destruct a, b; simpl; split; try done; try discriminate.
  - intros H. f_equal. lia.
  - intros [= ->]. lia.
Qed.

(** C10. For a connection whose state is not RINGING, pickup returns -1 and
    calls no CAPI primitive, yet it has rebound the connection: the type is
    the requested one and, for phone and fax, the initializer, the payload
    handler, the cleanup hook and the early-bearer flag are those of the
    requested kind (for any other kind these four keep their values); every
    other field of the connection, and every other slot, is unchanged. *)
Theorem pickup_not_ringing (E : environment) (conn : nat) (t : session_type) (w : world) (c : capi_connection) :
  slot w conn = Some c ->
  state c <> STATE_RINGING ->
  exists w' c',
    capi_pickup E (Some conn) t w = Ok (-1) w' /\
    wire_requests (trace w') = wire_requests (trace w) /\
    session w' = session w /\ unique_id w' = unique_id w /\
    heap w' = set_connection (<[conn := c']> (connection (heap w))) (heap w) /\
    type c' = t /\
    match t with
    | SESSION_PHONE =>
        init_data c' = Some capi_phone_init_data /\ data c' = Some capi_phone_data /\
        clean c' = None /\ early_b3 c' = 1
    | SESSION_FAX =>
        init_data c' = Some capi_fax_init_data /\ data c' = Some capi_fax_data /\
        clean c' = Some capi_fax_clean /\ early_b3 c' = 0
    | _ =>
        init_data c' = init_data c /\ data c' = data c /\
        clean c' = clean c /\ early_b3 c' = early_b3 c
    end /\
    id c' = id c /\ plci c' = plci c /\ ncci c' = ncci c /\ state c' = state c /\
    priv c' = priv c /\ source c' = source c /\ target c' = target c /\
    connect_time c' = connect_time c /\ audio c' = audio c /\ ncpi c' = ncpi c /\
    reason c' = reason c /\ reason_b3 c' = reason_b3 c /\
    use_buffers c' = use_buffers c /\ buffers c' = buffers c.
Proof.
  intros Hc Hs. unfold slot in Hc.
  assert (Hneq : state_eqb (state c) STATE_RINGING = false).
  { destruct (state_eqb (state c) STATE_RINGING) eqn:H; [|done].
    by apply state_eqb_eq in H. }
  unfold capi_pickup, capi_connection_set_type.
  destruct c; cbn [state] in Hneq.
  destruct t; run Hc; cbn [set_type set_init_data set_data set_clean set_early_b3 state];
    rewrite Hneq; cbn [negb]; eexists _, _; (split; [reflexivity|]);
    cbn [trace set_trace set_heap heap session unique_id set_connection
         appl_id message_number input_thread_state connection];
    rewrite ?list_insert_insert_eq, ?wire_requests_app; simpl; rewrite ?app_nil_r;
    repeat match goal with |- _ /\ _ => split end; reflexivity.
Qed.

Lemma pickup_not_ringing_witness :
  exists w' c',
    capi_pickup accepting (Some 1%nat) SESSION_FAX busy = Ok (-1) w' /\
    slot w' 1 = Some c' /\
    type c' = SESSION_FAX /\ clean c' = Some capi_fax_clean /\ state c' = STATE_CONNECT_WAIT.
Proof.
  destruct (pickup_not_ringing accepting 1 SESSION_FAX busy phone_call)
    as (w' & c' & Hrun & _ & _ & _ & Hheap & Htype & (_ & _ & Hclean & _) & _ & _ & _ & Hstate & _).
  - reflexivity.
  - discriminate.
  - exists w', c'. split; [exact Hrun|]. split; [|by repeat split].
    unfold slot. rewrite Hheap. reflexivity.
Defined.

(** C3, amended. With a session, hangup returns for every state of the
    connection and has no result to report a failure with. In the states
    CONNECT_B3_WAIT and CONNECTED it sends a bearer disconnect request and,
    only when that is refused, a physical disconnect request; in the six
    other active states it sends the physical disconnect request at once.
    The connection moves to DISCONNECT_B3_REQ or DISCONNECT_ACTIVE when the
    last request sent is accepted, and to IDLE with a status notification
    when the physical disconnect request is refused. RINGING sends the
    reject response and moves to IDLE (with a status notification when the
    response is refused); IDLE changes nothing; any other state is logged
    and nothing else changes. A NULL connection is ignored. Only the state
    field of the slot changes. *)
Theorem hangup_transitions (E : environment) (conn : nat) (w : world) (c : capi_connection) :
  session w = PTR ->
  slot w conn = Some c ->
  capi_hangup E None w = Ok tt w /\
  exists w' s',
    capi_hangup E (Some conn) w = Ok tt w' /\
    session w' = session w /\ unique_id w' = unique_id w /\
    appl_id (heap w') = appl_id (heap w) /\
    connection (heap w') = <[conn := set_state s' c]> (connection (heap w)) /\
    let physical := DISCONNECT_REQ (appl_id (heap w)) 1 (plci c) in
    let bearer := DISCONNECT_B3_REQ (appl_id (heap w)) 1 (ncci c) in
    let reject := CONNECT_RESP (appl_id (heap w)) (message_number (heap w)) (plci c) 3 0 0 0 None in
    match state c with
    | STATE_IDLE => w' = w
    | STATE_UNEXPECTED code =>
        s' = state c /\
        trace w' = trace w ++ [debug "Unexpected state 0x%x on disconnect" code]
    | STATE_RINGING =>
        s' = STATE_IDLE /\
        trace w' = trace w ++ wire reject ::
          (if capi20 E (trace w) reject =? 0 then []
           else posted E emit_status (trace w ++ [wire reject]) c)
    | STATE_CONNECT_B3_WAIT | STATE_CONNECTED =>
        if capi20 E (trace w) bearer =? 0 then
          s' = STATE_DISCONNECT_B3_REQ /\ trace w' = trace w ++ [wire bearer]
        else if capi20 E (trace w ++ [wire bearer]) physical =? 0 then
          s' = STATE_DISCONNECT_ACTIVE /\ trace w' = trace w ++ [wire bearer; wire physical]
        else
          s' = STATE_IDLE /\
          trace w' = trace w ++ [wire bearer; wire physical] ++
                     posted E emit_status (trace w ++ [wire bearer; wire physical]) c
    | _ =>
        if capi20 E (trace w) physical =? 0 then
          s' = STATE_DISCONNECT_ACTIVE /\ trace w' = trace w ++ [wire physical]
        else
          s' = STATE_IDLE /\
          trace w' = trace w ++ [wire physical] ++
                     posted E emit_status (trace w ++ [wire physical]) c
    end.
Proof.
  intros Hs Hc. split; [reflexivity|]. unfold slot in Hc.
  unfold capi_hangup, connection_status, posted.
  destruct c; cbn [state plci ncci id].
  destruct state0; run Hc;
    repeat (match goal with |- context [?x =? 0] => destruct (x =? 0) eqn:? end; run Hc);
    repeat (match goal with
            | |- context [rm_connection_find_by_id ?E ?t ?i] =>
                destruct (rm_connection_find_by_id E t i) eqn:?
            end; run Hc);
    eexists _, _; (split; [reflexivity|]); fields;
    rewrite <- ?app_assoc; simpl;
    repeat match goal with |- _ /\ _ => split end;
    try reflexivity; try assumption; try (symmetry; by apply list_insert_id).
Qed.

Lemma hangup_transitions_witness :
  exists w', capi_hangup refusing (Some 1%nat) busy = Ok tt w' /\
    state <$> slot w' 1 = Some STATE_IDLE /\
    trace w' = [wire (DISCONNECT_REQ 1 1 513); idle emit_status 1025].
Proof.
  destruct (hangup_transitions refusing 1 busy phone_call eq_refl eq_refl)
    as (_ & w' & s' & Hrun & _ & _ & _ & Htable & Hcase).
  cbn in Hcase. destruct Hcase as [-> Htrace].
  exists w'. split; [exact Hrun|]. split; [|exact Htrace].
  unfold slot. rewrite Htable. reflexivity.
Defined.

(** C3, as the specification states it: from every state in which hangup
    sends a disconnect request the connection moves to a DISCONNECT_* state.
    A transport that refuses the request is a counterexample: the phone call
    of [busy], in CONNECT_WAIT, ends in IDLE. *)
Lemma hangup_refused_counterexample :
  ~ (forall (E : environment) (conn : nat) (w w' : world) (c : capi_connection),
       session w = PTR ->
       slot w conn = Some c ->
       is_active (state c) = true ->
       capi_hangup E (Some conn) w = Ok tt w' ->
       exists c', slot w' conn = Some c' /\ is_disconnecting (state c') = true).
Proof.
  intros H.
  destruct (H refusing 1%nat busy _ phone_call eq_refl eq_refl eq_refl eq_refl)
    as (c' & Hc' & Hd).
  vm_compute in Hc'. injection Hc' as <-. discriminate.
Qed.


Lemma accepted_not_rejected (cip : Z) :
  accepted_cip cip = true ->
  negb (cip =? 16) && negb (cip =? 1) && negb (cip =? 4) && negb (cip =? 17) = false.
Proof.
  unfold accepted_cip.
  destruct (cip =? 16), (cip =? 1), (cip =? 4), (cip =? 17); simpl; congruence.
Qed.

Lemma has_free_scan (w : world) :
  has_free w <-> exists conn c, scan is_free (connection (heap w)) 0 = Some conn /\
                    slot w conn = Some c /\ is_free c = true.
Proof.
  split.
  - intros (conn & c & Hc & Hfree).
    destruct (scan is_free (connection (heap w)) 0) as [i|] eqn:Hscan.
    + destruct (scan_Some _ _ _ _ Hscan) as (j & c' & -> & Hl & Hp & _).
      exists j, c'. by rewrite Nat.add_0_l.
    + apply scan_None in Hscan. rewrite Forall_lookup in Hscan.
      specialize (Hscan conn c Hc). simpl in Hscan. congruence.
  - intros (conn & c & _ & Hc & Hfree). by exists conn, c.
Qed.

Lemma full_not_free (w : world) : pool_full w -> ~ has_free w.
Proof.
  intros Hfull (conn & c & Hc & Hfree). unfold pool_full in Hfull.
  rewrite Forall_lookup in Hfull. specialize (Hfull conn c Hc). simpl in Hfull. congruence.
Qed.

(** C9. An accepted connect indication (CIP 16, 1, 4 or 17, numbers that
    decode) uses the result of the pool allocation without a NULL check:
    with every slot occupied, and likewise without a session, the handler
    stops on a NULL dereference, having sent neither a reject nor anything
    else; with a session and a free slot it returns, the slot RINGING with
    the PLCI and the numbers of the indication, and ALERT_REQ sent. *)
Theorem connect_indication_needs_slot (E : environment) (ACCEPT_INTERN : bool)
    (capi_message : _cmsg) (w : world) (src trg : list Z) :
  Command capi_message = CAPI_CONNECT ->
  accepted_cip (CIPValue capi_message) = true ->
  capi_get_source_no capi_message = Val src ->
  capi_get_target_no capi_message = Val trg ->
  (pool_full w -> capi_indication E ACCEPT_INTERN capi_message w = Crash NullPointer w) /\
  (session w = NULL -> capi_indication E ACCEPT_INTERN capi_message w = Crash NullPointer w) /\
  (session w = PTR -> has_free w ->
   exists w' conn c',
     capi_indication E ACCEPT_INTERN capi_message w = Ok 0 w' /\
     slot w' conn = Some c' /\
     state c' = STATE_RINGING /\ plci c' = adr capi_message /\ type c' = SESSION_NONE /\
     source c' = Some (c_str src) /\ target c' = Some (c_str trg) /\
     trace w' = trace w ++ [wire (ALERT_REQ (appl_id (heap w)) 0 (adr capi_message))]).
Proof.
  intros Hcmd Hcip Hsrc Htrg.
  unfold capi_indication, indication_CONNECT. rewrite Hcmd, Hsrc, Htrg.
  rewrite (accepted_not_rejected _ Hcip).
  assert (Hif : (if ACCEPT_INTERN
                 then false && negb (bool_decide (take 2 (c_str src) = [42; 42]))
                 else false) = false) by by destruct ACCEPT_INTERN.
  split; [|split].
  - intros Hfull. step. rewrite Hif. step.
    unfold capi_get_free_connection. step.
    destruct (session w); [done|].
    by rewrite (proj2 (scan_None is_free _ 0) Hfull).
  - intros Hnull. step. rewrite Hif. step.
    unfold capi_get_free_connection. step. by rewrite Hnull.
  - intros Hs (conn & c & Hscan & Hc & Hfree)%has_free_scan. unfold slot in Hc.
    step. rewrite Hif. unfold capi_get_free_connection, capi_resp_connection.
    step. rewrite Hs, Hscan. destruct c. run Hc.
    eexists _, conn, _. split; [reflexivity|]. unfold slot. fields.
    rewrite (lookup_insert_same _ _ _ _ Hc).
    repeat match goal with |- _ /\ _ => split end; reflexivity.
Qed.

Lemma connect_indication_needs_slot_witness :
  capi_indication accepting false inbound busy = Crash NullPointer busy /\
  exists w', capi_indication accepting false inbound (fresh 2) = Ok 0 w' /\
    state <$> slot w' 0 = Some STATE_RINGING.
Proof.
  destruct (connect_indication_needs_slot accepting false inbound busy
              (memcpy (replicate 256 0) 0 (literal "5551234"))
              (memcpy (replicate 256 0) 0 (literal "12345")))
    as (Hfull & _); [reflexivity..|].
  destruct (connect_indication_needs_slot accepting false inbound (fresh 2)
              (memcpy (replicate 256 0) 0 (literal "5551234"))
              (memcpy (replicate 256 0) 0 (literal "12345")))
    as (_ & _ & Hfree); [reflexivity..|].
  split.
  - apply Hfull. repeat constructor.
  - destruct Hfree as (w' & conn & c' & Hrun & Hslot & Hstate & _).
    + reflexivity.
    + exists O, zero_connection. split; reflexivity.
    + exists w'. split; [exact Hrun|]. by vm_compute in Hrun; injection Hrun as <-.
Defined.

Lemma spin_trace (polls : nat) (w : world) :
  spin polls w = Ok tt (set_trace (trace w ++ replicate (S polls) (g_usleep 10)) w).
Proof.
  revert w. induction polls as [|polls IH]; intros w; simpl; [done|].
  step. rewrite IH. simpl. by rewrite <- app_assoc.
Qed.

Ltac cases H :=
  repeat (run H; rewrite ?spin_trace;
          match goal with
          | |- context [if ?x =? ?y then _ else _] => destruct (x =? y) eqn:?
          | |- context [match rm_connection_find_by_id ?E ?t ?i with _ => _ end] =>
              destruct (rm_connection_find_by_id E t i) eqn:?
          | |- context [match ?p with Some _ => _ | None => _ end] => is_var p; destruct p
          end);
  run H.






Lemma set_type_run (conn : nat) (t : session_type) (w : world) (c : capi_connection) :
  slot w conn = Some c ->
  capi_connection_set_type conn t w =
  Ok (match t with SESSION_PHONE | SESSION_FAX => 0 | _ => -1 end)
     (set_trace (trace w ++ rebind_events t) (with_slot conn (rebind t c) w)).
Proof.
  intros Hc. unfold slot in Hc. unfold capi_connection_set_type, with_slot, rebind, rebind_events.
  destruct w as [p h u tr]. destruct t; run Hc; rewrite ?app_nil_r; reflexivity.
Qed.

Lemma get_free_run (w : world) (conn : nat) (c : capi_connection) :
  session w = PTR ->
  scan is_free (connection (heap w)) 0 = Some conn ->
  slot w conn = Some c ->
  capi_get_free_connection w =
  Ok (Some conn)
     (with_slot conn (set_state STATE_IDLE (set_id (unique_id w) c))
        (set_unique_id ((unique_id w + 1) mod 2 ^ 32) w)).
Proof.
  intros Hs Hscan Hc. unfold slot in Hc. unfold capi_get_free_connection, with_slot.
  destruct w as [p h u tr]. simpl in *. subst p. step. rewrite Hscan. run Hc.
  reflexivity.
Qed.

Lemma set_free_run (E : environment) (conn : nat) (w : world) (c : capi_connection) :
  slot w conn = Some c ->
  capi_set_free E conn w =
  Ok 0 (set_trace (trace w ++ release_events c) (with_slot conn zero_connection w)).
Proof.
  intros Hc. unfold slot in Hc. unfold capi_set_free, with_slot, release_events.
  destruct w as [p h u tr]. run Hc.
  destruct (priv c); [destruct (clean c)|]; run Hc; rewrite ?app_nil_r; reflexivity.
Qed.

Lemma slot_with_slot (conn : nat) (c c' : capi_connection) (w : world) :
  slot w conn = Some c -> slot (with_slot conn c' w) conn = Some c'.
Proof. intros Hc. unfold slot, with_slot in *. simpl. by apply (lookup_insert_same _ _ c). Qed.

Lemma with_slot_twice (conn : nat) (c c' : capi_connection) (w : world) :
  with_slot conn c' (with_slot conn c w) = with_slot conn c' w.
Proof. unfold with_slot. destruct w as [p [a m i tbl] u tr]. simpl. by rewrite list_insert_insert_eq. Qed.

Lemma call_run (E : environment) (controller : Z) (src trg : cstring) (call_anonymous : Z)
    (t : session_type) (cip b1 b2 b3 : Z) (b1c b2c b3c : bytes)
    (w : world) (conn : nat) (c : capi_connection) :
  session w = PTR ->
  src <> [] -> trg <> [] ->
  scan is_free (connection (heap w)) 0 = Some conn ->
  slot w conn = Some c ->
  let c1 := rebind t (set_state STATE_IDLE (set_id (unique_id w) c)) in
  let t0 := trace w ++ rebind_events t in
  let req := CONNECT_REQ (appl_id (heap w)) 0 controller cip
               (called_party_number trg) (calling_party_number src trg call_anonymous)
               b1 b2 b3 b1c b2c b3c
               (bearer_capability trg cip) (low_layer_compatibility cip)
               (high_layer_compatibility cip) in
  let w0 := set_unique_id ((unique_id w + 1) mod 2 ^ 32) w in
  capi_call E controller (Some src) (Some trg) call_anonymous t cip b1 b2 b3 b1c b2c b3c w =
  if capi20 E t0 req =? 0 then
    Ok (Some conn)
       (set_trace (t0 ++ [wire req])
          (with_slot conn (set_source (Some src) (set_target (Some trg) c1)) w0))
  else
    Ok None
       (set_trace (t0 ++ [wire req; debug "(%d) Unable to send CONNECT_REQ!" (capi20 E t0 req)]
                      ++ release_events c1)
          (with_slot conn zero_connection w0)).
Proof.
  intros Hs Hsrc Htrg Hscan Hc c1 t0 req w0.
  unfold capi_call. unfold bind at 1. unfold get at 1. rewrite Hs.
  destruct src as [|s0 src]; [done|]. destruct trg as [|g0 trg]; [done|].
  cbn [length Nat.ltb Nat.leb orb].
  unfold bind at 1. rewrite (get_free_run w conn c Hs Hscan Hc).
  unfold bind at 1. erewrite set_type_run; [|by apply (slot_with_slot _ c)].
  rewrite with_slot_twice. fold c1 w0.
  subst c1 t0 req w0. unfold with_slot, slot, capi_set_free, release_events, rebind, rebind_events in *.
  destruct w as [p [a m i tbl] u tr]. cbn in Hs. subst p. destruct c.
  destruct t; cases Hc; rewrite ?app_nil_r; try reflexivity.
Qed.

Lemma wire_requests_release (c : capi_connection) : wire_requests (release_events c) = [].
Proof. unfold release_events. by destruct (priv c), (clean c). Qed.

Lemma wire_requests_rebind (t : session_type) : wire_requests (rebind_events t) = [].
Proof. by destruct t. Qed.

Lemma rebind_fields (t : session_type) (c : capi_connection) :
  type (rebind t c) = t /\ state (rebind t c) = state c /\ plci (rebind t c) = plci c /\
  ncci (rebind t c) = ncci c /\ id (rebind t c) = id c /\ priv (rebind t c) = priv c.
Proof. by destruct c, t. Qed.

(** C4, on the code. An outbound call of any kind other than phone and fax
    (with a session, numbers that are not empty and a free slot) is not
    rejected at setup: [capi_connection_set_type] answers -1 and
    [capi_call] drops the answer, so the connect request reaches the
    transport, and when the transport accepts it the caller is handed the
    connection, allocated with the unknown kind. *)
Theorem call_unknown_kind_reaches_wire (E : environment) (controller : Z) (src trg : cstring)
    (call_anonymous : Z) (t : session_type) (cip b1 b2 b3 : Z) (b1c b2c b3c : bytes)
    (w : world) :
  session w = PTR ->
  src <> [] -> trg <> [] ->
  has_free w ->
  t <> SESSION_PHONE -> t <> SESSION_FAX ->
  let req := CONNECT_REQ (appl_id (heap w)) 0 controller cip
               (called_party_number trg) (calling_party_number src trg call_anonymous)
               b1 b2 b3 b1c b2c b3c
               (bearer_capability trg cip) (low_layer_compatibility cip)
               (high_layer_compatibility cip) in
  exists w' r,
    capi_call E controller (Some src) (Some trg) call_anonymous t cip b1 b2 b3 b1c b2c b3c w
      = Ok r w' /\
    wire_requests (trace w') = wire_requests (trace w) ++ [req] /\
    (capi20 E (trace w ++ [debug "Unhandled session type!!" 0]) req = 0 ->
     exists conn c', r = Some conn /\ slot w' conn = Some c' /\
       type c' = t /\ state c' = STATE_IDLE /\ plci c' = 0).
Proof.
  intros Hs Hsrc Htrg (conn & c & Hscan & Hc & Hfree)%has_free_scan Hphone Hfax req.
  rewrite (call_run E controller src trg call_anonymous t cip b1 b2 b3 b1c b2c b3c
             w conn c Hs Hsrc Htrg Hscan Hc).
  assert (Hev : rebind_events t = [debug "Unhandled session type!!" 0]) by by destruct t.
  rewrite Hev. fold req.
  destruct (capi20 E (trace w ++ [debug "Unhandled session type!!" 0]) req =? 0) eqn:Hreq.
  - eexists _, _. split; [reflexivity|]. split.
    + cbn [trace set_trace]. by rewrite !wire_requests_app, app_nil_r.
    + intros _. eexists conn, _. split; [reflexivity|].
      split; [by apply (slot_with_slot _ c)|].
      assert (plci c = 0) as Hplci by (unfold is_free in Hfree; lia).
      destruct (rebind_fields t (set_state STATE_IDLE (set_id (unique_id w) c)))
        as (Ht & Hst & Hpl & _).
      destruct (rebind t _). destruct c. cbn in *. by subst.
  - eexists _, _. split; [reflexivity|]. split.
    + cbn [trace set_trace]. rewrite !wire_requests_app, wire_requests_release. simpl.
      by rewrite app_nil_r.
    + intros H0. rewrite H0 in Hreq. discriminate.
Qed.

Lemma call_unknown_kind_reaches_wire_witness :
  exists w',
    capi_call accepting 1 (Some (literal "5551234")) (Some (literal "12345")) 0
              SESSION_NONE 16 1 1 0 None None None (fresh 2) = Ok (Some 0%nat) w' /\
    wire_requests (trace w') =
      [CONNECT_REQ 1 0 1 16 (called_party_number (literal "12345"))
         (calling_party_number (literal "5551234") (literal "12345") 0)
         1 1 0 None None None [0; 0; 0; 0] [2; 128; 144] []] /\
    type <$> slot w' 0 = Some SESSION_NONE.
Proof.
  destruct (call_unknown_kind_reaches_wire accepting 1 (literal "5551234") (literal "12345")
              0 SESSION_NONE 16 1 1 0 None None None (fresh 2))
    as (w' & r & Hrun & Hwire & Hok); [reflexivity|discriminate|discriminate| |discriminate..|].
  - exists O, zero_connection. split; reflexivity.
  - exists w'. vm_compute in Hrun. injection Hrun as <- <-.
    split; [reflexivity|]. split; reflexivity.
Defined.







(** C7, amended. On the alert confirmation, with a session: an info other
    than 0 and 3 forces the connection found by PLCI to IDLE and changes
    nothing else, the trace included, so that no notification is raised
    (without such a connection nothing changes at all); an info of 0 or 3
    runs the ring handler on the connection found by PLCI, which registers
    the call with the application and posts the incoming notification, and
    leaves the table as it was (without such a connection the handler stops
    on a NULL dereference). *)
Theorem alert_confirmation (E : environment) (m : _cmsg) (w : world) (found : option nat) :
  Command m = CAPI_ALERT ->
  session w = PTR ->
  capi_find_plci (adr m) w = Ok found w ->
  match found with
  | Some conn =>
      forall c, slot w conn = Some c ->
        if negb (Info m =? 0) && negb (Info m =? 3) then
          capi_confirmation E m w = Ok tt (with_slot conn (set_state STATE_IDLE c) w)
        else
          forall trg, target c = Some trg ->
            capi_confirmation E m w =
            Ok tt (set_trace (trace w ++ ring_events E (trace w) c trg) w)
  | None =>
      if negb (Info m =? 0) && negb (Info m =? 3) then
        capi_confirmation E m w = Ok tt w
      else capi_confirmation E m w = Crash NullPointer w
  end.
Proof.
  intros Hcmd Hs Hfind.
  unfold capi_find_plci in Hfind. step. rewrite Hs in Hfind. injection Hfind as Hfind.
  unfold capi_confirmation, confirmation_ALERT, capi_find_plci, connection_ring,
    ring_events, with_slot, slot.
  rewrite Hcmd. destruct w as [p [a mn i tbl] u tr]. cbn in Hs, Hfind. subst p.
  destruct found as [conn|].
  - intros c Hc.
    destruct (Info m =? 0) eqn:H0, (Info m =? 3) eqn:H3; cbn [negb andb];
      try (intros trg Htrg); run Hc; rewrite Hfind; run Hc; rewrite ?H0, ?H3; run Hc;
      try reflexivity; rewrite Htrg;
      destruct (after_char 35 trg); run Hc;
      destruct (rm_connection_new E tr (id c)); simpl; rewrite <- ?app_assoc; reflexivity.
  - destruct (Info m =? 0) eqn:H0, (Info m =? 3) eqn:H3; cbn [negb andb];
      step; rewrite Hfind, ?H0, ?H3; reflexivity.
Qed.

Lemma alert_confirmation_witness :
  capi_confirmation accepting (alert_conf 513 8193) busy
    = Ok tt (with_slot 1 (set_state STATE_IDLE phone_call) busy) /\
  capi_confirmation accepting (alert_conf 513 0) busy
    = Ok tt (set_trace [rm_connection_add 1025 (literal "67890") (literal "5551234");
                        idle emit_incoming 1025] busy).
Proof.
  split.
  - exact (alert_confirmation accepting (alert_conf 513 8193) busy (Some 1%nat)
             eq_refl eq_refl eq_refl phone_call eq_refl).
  - exact (alert_confirmation accepting (alert_conf 513 0) busy (Some 1%nat)
             eq_refl eq_refl eq_refl phone_call eq_refl (literal "67890") eq_refl).
Defined.

(** C7, as the specification states it: an alert confirmation with an info
    other than 0 and 3 forces the connection to IDLE and raises a status
    notification. The phone call of [busy] is a counterexample: the
    connection goes to IDLE and the trace stays empty. *)
Lemma alert_failure_status_counterexample :
  ~ (forall (E : environment) (m : _cmsg) (w : world) (conn : nat)
            (c : capi_connection) (r : RmConnection),
       Command m = CAPI_ALERT ->
       Info m <> 0 -> Info m <> 3 ->
       session w = PTR ->
       capi_find_plci (adr m) w = Ok (Some conn) w ->
       slot w conn = Some c ->
       (forall t, rm_connection_find_by_id E t (id c) = Some r) ->
       exists w' c',
         capi_confirmation E m w = Ok tt w' /\ slot w' conn = Some c' /\
         state c' = STATE_IDLE /\ In (idle emit_status r) (trace w')).
Proof.
  intros H.
  destruct (H accepting (alert_conf 513 8193) busy 1%nat phone_call 1025 eq_refl
              ltac:(discriminate) ltac:(discriminate) eq_refl eq_refl eq_refl
              ltac:(reflexivity))
    as (w' & c' & Hrun & _ & _ & Hin).
  vm_compute in Hrun. injection Hrun as <-. exact Hin.
Qed.

Lemma c_str_app_zero (s rest : list Z) :
  Forall (fun b => b <> 0) s -> c_str (s ++ 0 :: rest) = s.
Proof.
  induction 1 as [|b s Hb _ IH]; simpl; [done|].
  apply Z.eqb_neq in Hb. rewrite Hb. by rewrite IH.
Qed.

Lemma memcpy_spec (src dst : list Z) (at_ : nat) :
  (at_ + length src <= length dst)%nat ->
  memcpy dst at_ src = take at_ dst ++ src ++ drop (at_ + length src) dst.
Proof.
  revert dst at_. induction src as [|b src IH]; intros dst at_ Hlen; simpl in *.
  - by rewrite Nat.add_0_r, take_drop.
  - rewrite IH by (rewrite length_insert; lia).
    rewrite (take_S_r (<[at_:=b]> dst) at_ b) by (apply list_lookup_insert_eq; lia).
    rewrite take_insert_ge by lia. rewrite drop_insert_lt by lia.
    rewrite <- app_assoc. simpl. repeat f_equal. lia.
Qed.

Lemma insert_zero_replicate (n i : nat) : <[i := 0]> (replicate n 0) = replicate n 0.
Proof.
  destruct (decide (i < n)%nat) as [Hlt|Hge].
  - apply list_insert_id. by apply lookup_replicate_2.
  - apply list_insert_ge. rewrite length_replicate. lia.
Qed.

Lemma c_str_replicate_zero (n : nat) : c_str (replicate n 0) = [].
Proof. by destruct n. Qed.

Lemma length_strncpy (src : cstring) (n : nat) : length (strncpy src n) = n.
Proof.
  unfold strncpy. rewrite length_take, length_app, length_replicate. lia.
Qed.

Lemma take_strncpy (src : cstring) (n : nat) :
  (length src <= n)%nat -> take (length src) (strncpy src n) = src.
Proof.
  intros Hle. unfold strncpy. rewrite take_take, Nat.min_l by done.
  by rewrite take_app_length.
Qed.

Lemma number_of_string (s : cstring) :
  (1 <= length s <= 255)%nat ->
  Forall (fun b => b <> 0) s ->
  c_str (memcpy (replicate 256 0) 0 s) = s.
Proof.
  intros Hlen Hnz. rewrite memcpy_spec by (rewrite length_replicate; lia).
  rewrite take_0, app_nil_l, Nat.add_0_l, drop_replicate.
  replace (256 - length s)%nat with (S (255 - length s)) by lia.
  by apply c_str_app_zero.
Qed.

(** C6, amended. For a calling number of 1 to 66 characters, a call that is
    not internal (the target does not begin with an asterisk or a hash
    sign) and not anonymous: the calling party number that [capi_call]
    encodes, read back by [capi_get_source_no] as the calling party number
    of a connect indication, yields the number. *)
Theorem calling_number_roundtrip (src trg : cstring) (call_anonymous : Z) (m : _cmsg) :
  (1 <= length src <= 66)%nat ->
  Forall (fun b => 0 < b < 256) src ->
  first_char trg <> 42 -> first_char trg <> 35 ->
  call_anonymous = 0 ->
  CallingPartyNumber m = Some (calling_party_number src trg call_anonymous) ->
  exists number, capi_get_source_no m = Val number /\ c_str number = src.
Proof.
  intros Hlen Hbytes Hstar Hhash -> Hm.
  assert (Hnz : Forall (fun b => b <> 0) src).
  { eapply Forall_impl; [exact Hbytes|]. intros b Hb. simpl in Hb. lia. }
  unfold capi_get_source_no. rewrite Hm.
  unfold calling_party_number.
  apply Z.eqb_neq in Hstar, Hhash. rewrite Hstar, Hhash. cbn [orb negb Z.eqb].
  assert (Hx0 : uchar (2 + Z.of_nat (length src)) = 2 + Z.of_nat (length src)).
  { unfold uchar. apply Z.mod_small. lia. }
  rewrite Hx0.
  cbn [peek app lookup list_lookup result_bind].
  destruct (Z.leb_spec (2 + Z.of_nat (length src)) 1) as [Hle|_]; [lia|].
  change (Z.land 128 128 =? 0) with false. cbn [negb].
  rewrite !insert_zero_replicate, c_str_replicate_zero. cbn [length].
  replace (Z.to_nat (2 + Z.of_nat (length src) - 2)) with (length src) by lia.
  unfold peek_block. cbn [length drop]. rewrite length_strncpy.
  destruct (Nat.leb_spec (3 + length src) (S (S (S 66)))) as [_|Hgt]; [|lia].
  rewrite drop_0, take_strncpy by lia. cbn [result_bind].
  rewrite number_of_string by (done || lia).
  destruct (Nat.eqb_spec (length src) 0) as [H0|_]; [lia|].
  eexists. split; [reflexivity|]. apply number_of_string; [lia|done].
Qed.

Lemma calling_number_roundtrip_witness :
  exists number,
    capi_get_source_no (connect_ind 769 16
      (Some (calling_party_number (literal "5551234") (literal "12345") 0)) None)
      = Val number /\
    c_str number = literal "5551234".
Proof.
  apply (calling_number_roundtrip (literal "5551234") (literal "12345") 0).
  - cbn. lia.
  - repeat constructor.
  - discriminate.
  - discriminate.
  - reflexivity.
  - reflexivity.
Defined.

(** C6, as the specification states it: the round trip recovers every
    calling number that is not empty, for a call that is neither internal
    nor anonymous. A number of 67 characters is a counterexample: the
    length byte announces 69 bytes, [strncpy] has written 66 characters,
    and the decoder reads the cell of the buffer that was never written. *)
Lemma calling_number_too_long_counterexample :
  ~ (forall (src trg : cstring) (m : _cmsg),
       src <> [] ->
       Forall (fun b => 0 < b < 256) src ->
       first_char src <> 42 -> first_char src <> 35 ->
       first_char trg <> 42 -> first_char trg <> 35 ->
       CallingPartyNumber m = Some (calling_party_number src trg 0) ->
       exists number, capi_get_source_no m = Val number /\ c_str number = src).
Proof.
  intros H.
  destruct (H (replicate 67 49) (literal "12345")
              (connect_ind 769 16
                 (Some (calling_party_number (replicate 67 49) (literal "12345") 0)) None))
    as (number & Hrun & _).
  - cbn. discriminate.
  - apply Forall_replicate. lia.
  - cbn. discriminate.
  - cbn. discriminate.
  - cbn. discriminate.
  - cbn. discriminate.
  - reflexivity.
  - vm_compute in Hrun. discriminate Hrun.
Qed.

(** ** Further properties *)

(** *** What the handlers keep *)

Lemma stable_intro (w w' : world) (t : list event) :
  session w' = session w ->
  appl_id (heap w') = appl_id (heap w) ->
  length (connection (heap w')) = length (connection (heap w)) ->
  message_number (heap w) <= message_number (heap w') ->
  trace w' = trace w ++ t ->
  stable w w'.
Proof. intros. unfold stable. eauto 10. Qed.

Lemma stable_refl (w : world) : stable w w.
Proof. apply (stable_intro w w []); try done; try lia. by rewrite app_nil_r. Qed.

Lemma stable_trans (w1 w2 w3 : world) : stable w1 w2 -> stable w2 w3 -> stable w1 w3.
Proof.
  intros (Hs & Ha & Hl & Hm & t & Ht) (Hs' & Ha' & Hl' & Hm' & t' & Ht').
  apply (stable_intro w1 w3 (t ++ t')); try congruence; try lia.
  by rewrite Ht', Ht, app_assoc.
Qed.

Lemma keeps_ret {A : Type} (a : A) : keeps (ret a).
Proof. intros w. apply stable_refl. Qed.

Lemma keeps_crash {A : Type} (f : fault) : keeps (@crash A f).
Proof. intros w. apply stable_refl. Qed.

Lemma keeps_get : keeps get.
Proof. intros w. apply stable_refl. Qed.

Lemma keeps_bind {A B : Type} (m : M A) (k : A -> M B) :
  keeps m -> (forall a, keeps (k a)) -> keeps (bind m k).
Proof.
  intros Hm Hk w. unfold bind. specialize (Hm w).
  destruct (m w) as [a w1|f w1]; [|done].
  specialize (Hk a w1). destruct (k a w1); by eapply stable_trans.
Qed.

Lemma keeps_emit (e : event) : keeps (emit e).
Proof. intros w. apply (stable_intro _ _ [e]); try done; cbn; lia. Qed.

Lemma keeps_the_session : keeps the_session.
Proof. intros w. unfold the_session. destruct (session w); apply stable_refl. Qed.

Lemma keeps_load (conn : nat) : keeps (load conn).
Proof. intros w. unfold load. destruct (_ !! _); apply stable_refl. Qed.

Lemma keeps_store (conn : nat) (c : capi_connection) : keeps (store conn c).
Proof.
  intros w. apply (stable_intro _ _ []); try done; cbn;
    rewrite ?length_insert, ?app_nil_r; try done; lia.
Qed.

Lemma keeps_lift {A : Type} (r : result A) : keeps (lift r).
Proof. intros w. unfold lift. destruct r; apply stable_refl. Qed.

Lemma keeps_deref (connection : option nat) : keeps (deref connection).
Proof. destruct connection; [apply keeps_ret|apply keeps_crash]. Qed.

Lemma keeps_set_unique_id (v : Z) : keeps (modify (set_unique_id v)).
Proof.
  intros w. apply (stable_intro _ _ []); try done; cbn; rewrite ?app_nil_r; try done; lia.
Qed.

Lemma keeps_set_input_thread_state (v : Z) :
  keeps (modify (fun w => set_heap (set_input_thread_state v (heap w)) w)).
Proof.
  intros w. apply (stable_intro _ _ []); try done; cbn; rewrite ?app_nil_r; try done; lia.
Qed.

Lemma keeps_next_message_number : keeps next_message_number.
Proof.
  intros w. unfold next_message_number, the_session. step.
  destruct (session w) eqn:Hs; [apply stable_refl|].
  apply (stable_intro _ _ []); try done; cbn; rewrite ?app_nil_r; try done; lia.
Qed.

Create HintDb capi_keeps.

#[local] Hint Resolve keeps_ret keeps_crash keeps_get keeps_emit keeps_the_session
  keeps_load keeps_store keeps_lift keeps_deref keeps_set_unique_id
  keeps_set_input_thread_state keeps_next_message_number : capi_keeps.

(** Walks through a computation: binds, branches, and the steps already
    known to keep the world stable. *)
Ltac keep :=
  repeat first
    [ solve [auto 1 with capi_keeps]
    | progress cbv zeta
    | apply keeps_bind; [|intros ?]
    | match goal with
      | |- keeps (if ?b then _ else _) => destruct b
      | |- keeps (match ?x with _ => _ end) => destruct x
      | |- keeps (when ?b _) => destruct b; cbn [when]
      end ].

Lemma keeps_update (conn : nat) (f : capi_connection -> capi_connection) : keeps (update conn f).
Proof. unfold update. keep. Qed.

Lemma keeps_call (E : environment) (r : request) : keeps (call E r).
Proof. unfold call. keep. Qed.

Lemma keeps_invoke (E : environment) (h : capability) (conn : nat) : keeps (invoke E h conn).
Proof. unfold invoke. keep. Qed.

Lemma keeps_spin (polls : nat) : keeps (spin polls).
Proof. induction polls; cbn [spin]; keep. Qed.

#[local] Hint Resolve keeps_update keeps_call keeps_invoke keeps_spin : capi_keeps.

Lemma keeps_connection_status (E : environment) (conn : nat) (status : Z) :
  keeps (connection_status E conn status).
Proof. unfold connection_status. keep. Qed.

Lemma keeps_connection_connect (E : environment) (conn : nat) :
  keeps (capi_connection_connect E conn).
Proof. unfold capi_connection_connect. keep. Qed.

Lemma keeps_connection_disconnect (E : environment) (conn : nat) :
  keeps (capi_connection_disconnect E conn).
Proof. unfold capi_connection_disconnect. keep. Qed.

Lemma keeps_connection_ring (E : environment) (connection : option nat) :
  keeps (connection_ring E connection).
Proof. unfold connection_ring. keep. Qed.

Lemma keeps_set_type (conn : nat) (t : session_type) : keeps (capi_connection_set_type conn t).
Proof. unfold capi_connection_set_type. keep. Qed.

Lemma keeps_get_free : keeps capi_get_free_connection.
Proof. unfold capi_get_free_connection. keep. Qed.

Lemma keeps_set_free (E : environment) (conn : nat) : keeps (capi_set_free E conn).
Proof. unfold capi_set_free. keep. Qed.

#[local] Hint Resolve keeps_connection_status keeps_connection_connect
  keeps_connection_disconnect keeps_connection_ring keeps_set_type keeps_get_free
  keeps_set_free : capi_keeps.

Lemma keeps_hangup (E : environment) (connection : option nat) :
  keeps (capi_hangup E connection).
Proof. unfold capi_hangup. keep. Qed.

#[local] Hint Resolve keeps_hangup : capi_keeps.

Lemma keeps_call_out (E : environment) (controller : Z) (src_no trg_no : option cstring)
    (call_anonymous : Z) (t : session_type) (cip b1 b2 b3 : Z) (b1c b2c b3c : bytes) :
  keeps (capi_call E controller src_no trg_no call_anonymous t cip b1 b2 b3 b1c b2c b3c).
Proof. unfold capi_call. keep. Qed.

Lemma keeps_pickup (E : environment) (connection : option nat) (t : session_type) :
  keeps (capi_pickup E connection t).
Proof. unfold capi_pickup. keep. Qed.

Lemma keeps_find_plci (p : Z) : keeps (capi_find_plci p).
Proof. unfold capi_find_plci. keep. Qed.

Lemma keeps_find_ncci (n : Z) : keeps (capi_find_ncci n).
Proof. unfold capi_find_ncci. keep. Qed.

Lemma keeps_find_new : keeps capi_find_new.
Proof. unfold capi_find_new. keep. Qed.

Lemma keeps_resp_connection (E : environment) (plci ignore : Z) :
  keeps (capi_resp_connection E plci ignore).
Proof. unfold capi_resp_connection. keep. Qed.

Lemma keeps_enable_dtmf (E : environment) (conn : nat) : keeps (capi_enable_dtmf E conn).
Proof. unfold capi_enable_dtmf. keep. Qed.

Lemma keeps_get_dtmf_code (conn : nat) (dtmf : Z) : keeps (capi_get_dtmf_code conn dtmf).
Proof. unfold capi_get_dtmf_code. keep. Qed.

#[local] Hint Resolve keeps_find_plci keeps_find_ncci keeps_find_new keeps_resp_connection
  keeps_enable_dtmf keeps_get_dtmf_code : capi_keeps.

Lemma keeps_open_audio (E : environment) (conn : nat) (message : bool) :
  keeps (open_audio E conn message).
Proof. unfold open_audio. keep. Qed.

Lemma keeps_teardown (E : environment) (conn : nat) : keeps (teardown E conn).
Proof. unfold teardown. keep. Qed.

#[local] Hint Resolve keeps_open_audio keeps_teardown : capi_keeps.

Lemma keeps_indication (E : environment) (ACCEPT_INTERN : bool) (capi_message : _cmsg) :
  keeps (capi_indication E ACCEPT_INTERN capi_message).
Proof.
  unfold capi_indication, indication_CONNECT, indication_CONNECT_ACTIVE,
    indication_CONNECT_B3, indication_CONNECT_B3_ACTIVE, indication_DATA_B3,
    indication_FACILITY, indication_INFO, indication_DISCONNECT_B3, indication_DISCONNECT.
  keep.
Qed.

Lemma keeps_confirmation (E : environment) (capi_message : _cmsg) :
  keeps (capi_confirmation E capi_message).
Proof.
  unfold capi_confirmation, confirmation_ALERT, confirmation_DATA_B3, confirmation_CONNECT.
  keep.
Qed.

(** X1. Whatever the message, and whether the handler returns or stops on a
    fault, an indication or a confirmation leaves the session pointer, the
    application id and the number of slots as they were, does not decrease
    the message number and only appends to the trace; so do hangup, call
    and pickup. *)
Theorem handlers_keep_session (E : environment) (ACCEPT_INTERN : bool) :
  (forall capi_message, keeps (capi_indication E ACCEPT_INTERN capi_message)) /\
  (forall capi_message, keeps (capi_confirmation E capi_message)) /\
  (forall connection, keeps (capi_hangup E connection)) /\
  (forall connection t, keeps (capi_pickup E connection t)) /\
  (forall controller src_no trg_no call_anonymous t cip b1 b2 b3 b1c b2c b3c,
     keeps (capi_call E controller src_no trg_no call_anonymous t cip b1 b2 b3 b1c b2c b3c)).
Proof.
  split; [intros; apply keeps_indication|].
  split; [intros; apply keeps_confirmation|].
  split; [intros; apply keeps_hangup|].
  split; [intros; apply keeps_pickup|].
  intros; apply keeps_call_out.
Qed.













Lemma init_listen_run (E : environment) (count : nat) (appl index : Z) (w : world) :
  exists r t,
    capi_init_listen E count appl index w = Ok r (set_trace (trace w ++ t) w) /\
    Forall (fun e => exists i, e = listen appl i) t.
Proof.
  revert index w. induction count as [|count IH]; intros index w; cbn [capi_init_listen].
  - exists None, []. split; [|done]. step. rewrite app_nil_r. by destruct w.
  - step. destruct (negb (capi20 E (trace w) (LISTEN_REQ appl 0 index 1023 536806399 0) =? 0)).
    + eexists _, [_]. split; [reflexivity|]. repeat constructor. by exists index.
    + destruct (IH (index + 1) (set_trace (trace w ++ [listen appl index]) w))
        as (r & t & Hrun & Hall).
      unfold listen in Hrun at 1. rewrite Hrun.
      exists r, (listen appl index :: t). split.
      * cbn. by rewrite <- app_assoc.
      * constructor; [by exists index|done].
Qed.





(** ** The numbers of a connect indication *)

Lemma length_memcpy (src dst : list Z) (at_ : nat) :
  length (memcpy dst at_ src) = length dst.
Proof.
  revert dst at_. induction src as [|b src IH]; intros dst at_; [done|].
  cbn [memcpy]. by rewrite IH, length_insert.
Qed.

Lemma c_str_strcpy (number : list Z) (s : string) :
  (length (literal s) < length number)%nat ->
  Forall (fun b => b <> 0) (literal s) ->
  c_str (strcpy number s) = literal s.
Proof.
  intros Hlen Hnz. unfold strcpy.
  rewrite memcpy_spec by (rewrite length_app; cbn; lia).
  rewrite take_0, app_nil_l, <- app_assoc. cbn [app].
  by apply c_str_app_zero.
Qed.

Lemma literal_not_zero (s : string) :
  forallb (fun b => negb (b =? 0)) (literal s) = true ->
  Forall (fun b => b <> 0) (literal s).
Proof.
  intros H. apply Forall_forall. intros b Hb%list_elem_of_In.
  rewrite forallb_forall in H. specialize (H b Hb).
  apply negb_true_iff, Z.eqb_neq in H. exact H.
Qed.

(** X5. For a called number of 1 to 67 characters: the called party number
    that [capi_call] encodes, read back by [capi_get_target_no] as the
    called party number of a connect indication, yields the number. *)
Theorem called_number_roundtrip (trg : cstring) (m : _cmsg) :
  (1 <= length trg <= 67)%nat ->
  Forall (fun b => 0 < b < 256) trg ->
  CalledPartyNumber m = Some (called_party_number trg) ->
  exists number, capi_get_target_no m = Val number /\ c_str number = trg.
Proof.
  intros Hlen Hbytes Hm.
  assert (Hnz : Forall (fun b => b <> 0) trg).
  { eapply Forall_impl; [exact Hbytes|]. intros b Hb. simpl in Hb. lia. }
  unfold capi_get_target_no. rewrite Hm. unfold called_party_number.
  assert (Hx0 : uchar (1 + Z.of_nat (length trg)) = 1 + Z.of_nat (length trg)).
  { unfold uchar. apply Z.mod_small. lia. }
  rewrite Hx0.
  cbn [peek app lookup list_lookup result_bind].
  destruct (Z.leb_spec (1 + Z.of_nat (length trg)) 1) as [Hle|_]; [lia|].
  rewrite !insert_zero_replicate, c_str_replicate_zero. cbn [length].
  replace (Z.to_nat (1 + Z.of_nat (length trg) - 1)) with (length trg) by lia.
  unfold peek_block. cbn [length drop]. rewrite length_strncpy.
  destruct (Nat.leb_spec (2 + length trg) (S (S 67))) as [_|Hgt]; [|lia].
  rewrite drop_0, take_strncpy by lia. cbn [result_bind].
  rewrite number_of_string by (done || lia).
  destruct (Nat.eqb_spec (length trg) 0) as [H0|_]; [lia|].
  eexists. split; [reflexivity|]. apply number_of_string; [lia|done].
Qed.

Lemma called_number_roundtrip_witness :
  exists number,
    capi_get_target_no (connect_ind 769 16 None (Some (called_party_number (literal "12345"))))
      = Val number /\
    c_str number = literal "12345".
Proof.
  apply (called_number_roundtrip (literal "12345")).
  - cbn. lia.
  - repeat constructor.
  - reflexivity.
Defined.

(** X6. Neither decoder hands out an empty number: whatever the fields of
    the message hold, a number that [capi_get_source_no] or
    [capi_get_target_no] returns has at least one character. *)
Theorem decoded_number_not_empty (m : _cmsg) (number : list Z) :
  capi_get_source_no m = Val number \/ capi_get_target_no m = Val number ->
  c_str number <> [].
Proof.
  assert (Hlast : forall r : result (list Z),
    (forall n, r = Val n -> length n = 256%nat) ->
    (n <~ r ;; if (length (c_str n) =? 0)%nat then Val (strcpy n "anonymous") else Val n)
      = Val number ->
    c_str number <> []).
  { intros [n|f] Hn; cbn [result_bind]; [|discriminate].
    specialize (Hn n eq_refl).
    destruct (Nat.eqb_spec (length (c_str n)) 0) as [H0|H0]; intros [= <-].
    - rewrite c_str_strcpy; [done|cbn; lia|by apply literal_not_zero].
    - by destruct (c_str n). }
  assert (Hunknown : length (strcpy (replicate 256 0) "unknown") = 256%nat) by reflexivity.
  intros [H|H]; revert H.
  - unfold capi_get_source_no.
    match goal with |- result_bind ?r _ = _ -> _ => destruct r as [len|f] end;
      cbn [result_bind]; [|discriminate].
    apply Hlast. intros n. destruct (len <=? 1); [by intros [= <-]|].
    repeat match goal with
           | |- context [peek ?p ?i] => destruct (peek p i); cbn [result_bind]; [|discriminate]
           | |- context [peek_block ?p ?i ?k] => destruct (peek_block p i k); cbn [result_bind]; [|discriminate]
           | |- context [if ?b then _ else _] => destruct b
           end;
      intros [= <-]; rewrite length_memcpy, ?length_insert, ?length_replicate; reflexivity.
  - unfold capi_get_target_no.
    match goal with |- result_bind ?r _ = _ -> _ => destruct r as [len|f] end;
      cbn [result_bind]; [|discriminate].
    apply Hlast. intros n. destruct (len <=? 1); [by intros [= <-]|].
    repeat match goal with
           | |- context [peek ?p ?i] => destruct (peek p i); cbn [result_bind]; [|discriminate]
           | |- context [peek_block ?p ?i ?k] => destruct (peek_block p i k); cbn [result_bind]; [|discriminate]
           end;
      intros [= <-]; rewrite length_memcpy, ?length_insert, ?length_replicate; reflexivity.
Qed.

Lemma decoded_number_not_empty_witness :
  c_str (strcpy (replicate 256 0) "unknown") <> [].
Proof.
  apply (decoded_number_not_empty (connect_ind 769 16 None None)).
  left. reflexivity.
Defined.

(** X7. A number field whose length byte is 0 or 1 decodes to the word
    unknown, by both decoders and whatever follows the length byte; so does
    a message that has neither the field nor an info element. *)
Theorem short_number_is_unknown (m : _cmsg) (field : bytes) :
  match field with
  | None => InfoElement m = None
  | Some cells => exists len, cells !! 0%nat = Some len /\ len <= 1
  end ->
  (CallingPartyNumber m = field -> decoded (capi_get_source_no m) = Some (literal "unknown")) /\
  (CalledPartyNumber m = field -> decoded (capi_get_target_no m) = Some (literal "unknown")).
Proof.
  intros Hfield. unfold capi_get_source_no, capi_get_target_no.
  split; intros ->; destruct field as [cells|].
  all: try (rewrite Hfield; reflexivity).
  all: destruct Hfield as (len & Hlen & Hle); unfold peek; rewrite Hlen; cbn [result_bind];
    destruct (Z.leb_spec len 1) as [_|Hgt]; [reflexivity|lia].
Qed.

Lemma short_number_is_unknown_witness :
  decoded (capi_get_source_no (connect_ind 769 16 (Some [1; 128]) (Some [1; 128])))
    = Some (literal "unknown") /\
  decoded (capi_get_target_no (connect_ind 769 16 (Some [1; 128]) (Some [1; 128])))
    = Some (literal "unknown").
Proof.
  destruct (short_number_is_unknown (connect_ind 769 16 (Some [1; 128]) (Some [1; 128]))
              (Some [1; 128])) as [Hsource Htarget].
  - exists 1. split; [reflexivity|lia].
  - split; [apply Hsource|apply Htarget]; reflexivity.
Defined.

(** X8. A calling party number that announces two bytes and carries the
    presentation octet (bit 7 of the third byte set) has no digits:
    [capi_get_source_no] decodes it to the word anonymous. *)
Theorem withheld_number_is_anonymous (m : _cmsg) (numbering presentation : Z) (rest : list Z) :
  Z.land presentation 128 <> 0 ->
  CallingPartyNumber m = Some (2 :: numbering :: presentation :: rest) ->
  decoded (capi_get_source_no m) = Some (literal "anonymous").
Proof.
  intros Hbit%Z.eqb_neq Hm. unfold capi_get_source_no. rewrite Hm.
  cbn [peek lookup list_lookup result_bind Z.leb Z.compare Pos.compare Pos.compare_cont].
  rewrite Hbit. reflexivity.
Qed.

Lemma withheld_number_is_anonymous_witness :
  decoded (capi_get_source_no (connect_ind 769 16 (Some [2; 0; 160]) None)) = Some (literal "anonymous").
Proof.
  apply (withheld_number_is_anonymous _ 0 160 []); [discriminate|reflexivity].
Defined.

(** X9. The presentation octet that [capi_call] sets for an anonymous call
    is lost by the decoder: the calling party number of an anonymous call
    decodes exactly as that of the same call made openly. *)
Theorem presentation_not_decoded (src trg : cstring) (call_anonymous : Z) (m m' : _cmsg) :
  CallingPartyNumber m = Some (calling_party_number src trg call_anonymous) ->
  CallingPartyNumber m' = Some (calling_party_number src trg 0) ->
  capi_get_source_no m = capi_get_source_no m'.
Proof.
  intros Hm Hm'. unfold capi_get_source_no. rewrite Hm, Hm'.
  unfold calling_party_number.
  destruct ((first_char trg =? 42) || (first_char trg =? 35));
    destruct (call_anonymous =? 0); reflexivity.
Qed.

Lemma presentation_not_decoded_witness :
  capi_get_source_no (connect_ind 769 16 (Some (calling_party_number (literal "5551234") (literal "12345") 1)) None) =
  capi_get_source_no (connect_ind 769 16 (Some (calling_party_number (literal "5551234") (literal "12345") 0)) None).
Proof.
  apply (presentation_not_decoded (literal "5551234") (literal "12345") 1); reflexivity.
Defined.

(** X10. For a call to an internal target (one that begins with an asterisk
    or a hash sign) [capi_call] sends the service number in place of the
    source number: whatever the source number, the calling party number of
    the request decodes to **981. *)
Theorem internal_call_source (src trg : cstring) (call_anonymous : Z) (m : _cmsg) :
  first_char trg = 42 \/ first_char trg = 35 ->
  CallingPartyNumber m = Some (calling_party_number src trg call_anonymous) ->
  decoded (capi_get_source_no m) = Some (literal "**981").
Proof.
  intros Hintern Hm. unfold capi_get_source_no. rewrite Hm.
  unfold calling_party_number.
  replace ((first_char trg =? 42) || (first_char trg =? 35)) with true
    by (destruct Hintern as [->| ->]; [reflexivity|]; symmetry; apply orb_true_r).
  destruct (call_anonymous =? 0); reflexivity.
Qed.

Lemma internal_call_source_witness :
  decoded (capi_get_source_no
             (connect_ind 769 16 (Some (calling_party_number (literal "5551234") (literal "**610") 0)) None))
  = Some (literal "**981").
Proof.
  apply (internal_call_source (literal "5551234") (literal "**610") 0); [by left|reflexivity].
Defined.

(** ** The connection pool and its lookups *)

Lemma is_free_allocated (c : capi_connection) (u : Z) :
  is_free (set_state STATE_IDLE (set_id u c)) = is_free c.
Proof. by destruct c. Qed.

Lemma scan_insert_same (p : capi_connection -> bool) (table : list capi_connection)
    (conn : nat) (c c' : capi_connection) :
  scan p table 0 = Some conn ->
  table !! conn = Some c ->
  p c' = true ->
  scan p (<[conn := c']> table) 0 = Some conn.
Proof.
  intros Hscan Hc Hp.
  apply scan_Some in Hscan as (j & c0 & -> & Hj & _ & Hbefore). cbn [Nat.add] in *.
  apply (scan_first p _ j c' (lookup_insert_same _ _ _ _ Hj) Hp).
  intros j' c1 Hlt H1. rewrite list_lookup_insert_ne in H1 by lia. by eapply Hbefore.
Qed.

Lemma occupied_insert (table : list capi_connection) (conn : nat) (c c' : capi_connection) :
  table !! conn = Some c ->
  is_free c' = is_free c ->
  occupied (<[conn := c']> table) = occupied table.
Proof.
  unfold occupied. revert conn. induction table as [|a table IH]; intros [|conn] Hc Hfree;
    try done; simpl in Hc |- *.
  - injection Hc as ->. rewrite Hfree. by destruct (is_free c).
  - specialize (IH conn Hc Hfree). destruct (is_free a); cbn; congruence.
Qed.

(** X11. An allocation does not reserve the slot it hands out: the slot
    stays free (without PLCI and NCCI), so that a second allocation, with
    nothing in between, hands out the same slot under the next connection
    id, and the number of occupied slots has not changed. *)
Theorem allocation_not_reserved (w : world) :
  session w = PTR ->
  has_free w ->
  exists conn w1 w2 c1 c2,
    capi_get_free_connection w = Ok (Some conn) w1 /\
    capi_get_free_connection w1 = Ok (Some conn) w2 /\
    slot w1 conn = Some c1 /\ slot w2 conn = Some c2 /\
    id c1 = unique_id w /\ id c2 = (unique_id w + 1) mod 2 ^ 32 /\
    state c1 = STATE_IDLE /\ state c2 = STATE_IDLE /\
    occupied (connection (heap w2)) = occupied (connection (heap w)).
Proof.
  intros Hs (conn & c & Hscan & Hc & Hfree)%has_free_scan.
  set (c1 := set_state STATE_IDLE (set_id (unique_id w) c)).
  set (w1 := with_slot conn c1 (set_unique_id ((unique_id w + 1) mod 2 ^ 32) w)).
  set (c2 := set_state STATE_IDLE (set_id (unique_id w1) c1)).
  assert (H1 : slot w1 conn = Some c1) by (by apply (slot_with_slot _ c)).
  exists conn, w1, (with_slot conn c2 (set_unique_id ((unique_id w1 + 1) mod 2 ^ 32) w1)), c1, c2.
  split; [by apply get_free_run|].
  split.
  { apply get_free_run; [done| |done]. unfold w1, with_slot. cbn.
    apply (scan_insert_same _ _ _ c); [done..|].
    unfold c1. by rewrite is_free_allocated. }
  split; [done|]. split; [by apply (slot_with_slot _ c1)|].
  split; [by destruct c|]. split; [by destruct c|].
  split; [by destruct c|]. split; [by destruct c|].
  unfold w1, with_slot. cbn. rewrite list_insert_insert_eq.
  apply (occupied_insert _ _ c); [done|]. by destruct c.
Qed.

Lemma allocation_not_reserved_witness :
  exists w1 w2,
    capi_get_free_connection (fresh 2) = Ok (Some 0%nat) w1 /\
    capi_get_free_connection w1 = Ok (Some 0%nat) w2 /\
    occupied (connection (heap w2)) = O.
Proof.
  destruct (allocation_not_reserved (fresh 2)) as (conn & w1 & w2 & c1 & c2 & Hrun1 & Hrun2 & _ & _ & _ & _ & _ & _ & Hocc).
  - reflexivity.
  - exists 0%nat, zero_connection. by split.
  - exists w1, w2. vm_compute in Hrun1. injection Hrun1 as <- <-. by split.
Defined.

Lemma scan_lookup (p : capi_connection -> bool) (table : list capi_connection) :
  match scan p table 0 with
  | Some conn =>
      exists c, table !! conn = Some c /\ p c = true /\
        forall j c', (j < conn)%nat -> table !! j = Some c' -> p c' = false
  | None => Forall (fun c => p c = false) table
  end.
Proof.
  destruct (scan p table 0) as [conn|] eqn:Hscan.
  - apply scan_Some in Hscan as (j & c & -> & Hj & Hp & Hbefore). by exists c.
  - by apply scan_None in Hscan.
Qed.

(** X12. With a session, the three lookups return without changing
    anything, and what they return is the first slot of the table, in
    index order, that matches: the slot with the PLCI asked for, the slot
    with the NCCI asked for, the slot without PLCI whose kind is set.
    They return NULL exactly when no slot matches. *)
Theorem lookups_first_match (p n : Z) (w : world) :
  session w = PTR ->
  exists by_plci by_ncci new,
    capi_find_plci p w = Ok by_plci w /\
    capi_find_ncci n w = Ok by_ncci w /\
    capi_find_new w = Ok new w /\
    match by_plci with
    | Some conn =>
        exists c, slot w conn = Some c /\ plci c = p /\
          forall j c', (j < conn)%nat -> slot w j = Some c' -> plci c' <> p
    | None => Forall (fun c => plci c <> p) (connection (heap w))
    end /\
    match by_ncci with
    | Some conn =>
        exists c, slot w conn = Some c /\ ncci c = n /\
          forall j c', (j < conn)%nat -> slot w j = Some c' -> ncci c' <> n
    | None => Forall (fun c => ncci c <> n) (connection (heap w))
    end /\
    match new with
    | Some conn =>
        exists c, slot w conn = Some c /\ plci c = 0 /\ type c <> SESSION_NONE /\
          forall j c', (j < conn)%nat -> slot w j = Some c' ->
            plci c' <> 0 \/ type c' = SESSION_NONE
    | None => Forall (fun c => plci c <> 0 \/ type c = SESSION_NONE) (connection (heap w))
    end.
Proof.
  intros Hs. unfold capi_find_plci, capi_find_ncci, capi_find_new, slot. step. rewrite Hs.
  assert (Hnew : forall c,
    ((plci c =? 0) && negb (type_eqb (type c) SESSION_NONE) = true <->
       plci c = 0 /\ type c <> SESSION_NONE) /\
    ((plci c =? 0) && negb (type_eqb (type c) SESSION_NONE) = false <->
       plci c <> 0 \/ type c = SESSION_NONE)).
  { intros c. destruct (Z.eqb_spec (plci c) 0) as [H0|H0]; destruct (type c); cbn;
      intuition (try discriminate; try congruence). }
  eexists _, _, _. split; [reflexivity|]. split; [reflexivity|]. split; [reflexivity|].
  split; [|split].
  - pose proof (scan_lookup (fun c => plci c =? p) (connection (heap w))) as H.
    destruct (scan _ _ 0) as [conn|].
    + destruct H as (c & Hc & Hp%Z.eqb_eq & Hbefore). exists c.
      split; [done|]. split; [done|]. intros j c' Hlt Hj. by apply Z.eqb_neq, (Hbefore j).
    + eapply Forall_impl; [exact H|]. intros c Hc. by apply Z.eqb_neq.
  - pose proof (scan_lookup (fun c => ncci c =? n) (connection (heap w))) as H.
    destruct (scan _ _ 0) as [conn|].
    + destruct H as (c & Hc & Hp%Z.eqb_eq & Hbefore). exists c.
      split; [done|]. split; [done|]. intros j c' Hlt Hj. by apply Z.eqb_neq, (Hbefore j).
    + eapply Forall_impl; [exact H|]. intros c Hc. by apply Z.eqb_neq.
  - pose proof (scan_lookup (fun c => (plci c =? 0) && negb (type_eqb (type c) SESSION_NONE))
                  (connection (heap w))) as H.
    destruct (scan _ _ 0) as [conn|].
    + destruct H as (c & Hc & [Hp Ht]%Hnew & Hbefore). exists c.
      split; [done|]. split; [done|]. split; [done|].
      intros j c' Hlt Hj. by apply Hnew, (Hbefore j).
    + eapply Forall_impl; [exact H|]. intros c Hc. by apply Hnew.
Qed.

Lemma lookups_first_match_witness :
  capi_find_plci 513 busy = Ok (Some 1%nat) busy /\
  capi_find_ncci 65793 busy = Ok (Some 0%nat) busy /\
  capi_find_new busy = Ok None busy.
Proof.
  destruct (lookups_first_match 513 65793 busy) as (a & b & c & Ha & Hb & Hc & _); [reflexivity|].
  vm_compute in Ha, Hb, Hc. injection Ha as <-. injection Hb as <-. injection Hc as <-.
  by repeat split.
Defined.

(** X13. Pickup of a ringing connection, with a session: the connection is
    bound to the requested kind, the accepting connect response is sent
    under the next message number, the connection moves to INCOMING_WAIT
    and pickup returns 0, whatever the transport answers to the response
    and whether or not the kind is one that can be bound. *)
Theorem pickup_ringing (E : environment) (conn : nat) (t : session_type) (w : world) (c : capi_connection) :
  session w = PTR ->
  slot w conn = Some c ->
  state c = STATE_RINGING ->
  exists w',
    capi_pickup E (Some conn) t w = Ok 0 w' /\
    slot w' conn = Some (set_state STATE_INCOMING_WAIT (rebind t c)) /\
    connection (heap w') =
      <[conn := set_state STATE_INCOMING_WAIT (rebind t c)]> (connection (heap w)) /\
    message_number (heap w') = message_number (heap w) + 1 /\
    trace w' = trace w ++ rebind_events t ++
      [wire (CONNECT_RESP (appl_id (heap w)) (message_number (heap w)) (plci c) 0 1 1 0
               (Some [0; 0; 0; 0]))].
Proof.
  intros Hs Hc Hring. unfold slot in *. unfold capi_pickup, capi_connection_set_type.
  destruct c; cbn [state] in Hring; subst.
  destruct t; run Hc; cbn [state_eqb negb]; run Hc;
    eexists; (split; [reflexivity|]); fields;
    rewrite ?(lookup_insert_same _ _ _ _ Hc), ?list_insert_insert_eq;
    repeat match goal with |- _ /\ _ => split end; reflexivity.
Qed.

Lemma pickup_ringing_witness :
  exists w',
    capi_pickup refusing (Some 0%nat) SESSION_PHONE
      (with_slot 0 (set_state STATE_RINGING phone_call) busy) = Ok 0 w' /\
    trace w' = [wire (CONNECT_RESP 1 7 513 0 1 1 0 (Some [0; 0; 0; 0]))].
Proof.
  destruct (pickup_ringing refusing 0 SESSION_PHONE
              (with_slot 0 (set_state STATE_RINGING phone_call) busy)
              (set_state STATE_RINGING phone_call))
    as (w' & Hrun & _ & _ & _ & Htrace); [reflexivity..|].
  exists w'. by split.
Defined.

(** ** Indications and confirmations *)

(** X14. A connect indication whose CIP value is none of 16, 1, 4 and 17
    is ignored (with ACCEPT_INTERN: unless the calling number begins with
    two asterisks): with a session, the handler sends the connect response
    with reject value 1 under the next message number and returns 0; it
    allocates nothing, so that the table and the connection id counter
    stay, and a full table is no obstacle. *)
Theorem connect_indication_ignored (E : environment) (ACCEPT_INTERN : bool)
    (capi_message : _cmsg) (w : world) (src trg : list Z) :
  Command capi_message = CAPI_CONNECT ->
  accepted_cip (CIPValue capi_message) = false ->
  capi_get_source_no capi_message = Val src ->
  capi_get_target_no capi_message = Val trg ->
  (ACCEPT_INTERN = true -> take 2 (c_str src) <> [42; 42]) ->
  session w = PTR ->
  capi_indication E ACCEPT_INTERN capi_message w =
  Ok 0 (set_trace
          (trace w ++ [wire (CONNECT_RESP (appl_id (heap w)) (message_number (heap w))
                               (adr capi_message) 1 1 1 0 None)])
          (set_heap (set_message_number (message_number (heap w) + 1) (heap w)) w)).
Proof.
  intros Hcmd Hcip Hsrc Htrg Hintern Hs.
  unfold capi_indication, indication_CONNECT. rewrite Hcmd, Hsrc, Htrg.
  assert (Hreject : negb (CIPValue capi_message =? 16) && negb (CIPValue capi_message =? 1)
                    && negb (CIPValue capi_message =? 4) && negb (CIPValue capi_message =? 17)
                    = true).
  { unfold accepted_cip in Hcip.
    destruct (_ =? 16), (_ =? 1), (_ =? 4), (_ =? 17); simpl in *; congruence. }
  rewrite Hreject.
  assert (Hif : (if ACCEPT_INTERN
                 then true && negb (bool_decide (take 2 (c_str src) = [42; 42]))
                 else true) = true).
  { destruct ACCEPT_INTERN; [|done]. cbn. by rewrite bool_decide_eq_false_2 by auto. }
  step. rewrite Hif. unfold capi_resp_connection. cbn [Z.eqb].
  repeat (step; rewrite ?Hs). reflexivity.
Qed.

Lemma connect_indication_ignored_witness :
  capi_indication accepting true
    (connect_ind 769 2 (Some [9; 0; 128; 53; 53; 53; 49; 50; 51; 52]) (Some [6; 128; 49; 50; 51; 52; 53]))
    busy =
  Ok 0 (set_trace [wire (CONNECT_RESP 1 7 769 1 1 1 0 None)]
          (set_heap (set_message_number 8 (heap busy)) busy)).
Proof.
  refine (connect_indication_ignored accepting true
            (connect_ind 769 2 (Some [9; 0; 128; 53; 53; 53; 49; 50; 51; 52])
               (Some [6; 128; 49; 50; 51; 52; 53]))
            busy
            (memcpy (replicate 256 0) 0 (literal "5551234"))
            (memcpy (replicate 256 0) 0 (literal "12345")) _ _ _ _ _ _); try reflexivity.
  intros _. vm_compute. discriminate.
Defined.

(** X15. With ACCEPT_INTERN, a connect indication from a calling number
    that begins with two asterisks is accepted whatever its CIP value:
    with a session and a free slot the slot rings, holding the PLCI and
    the numbers, and ALERT_REQ is sent. *)
Theorem internal_indication_accepted (E : environment) (capi_message : _cmsg) (w : world)
    (src trg : list Z) :
  Command capi_message = CAPI_CONNECT ->
  capi_get_source_no capi_message = Val src ->
  capi_get_target_no capi_message = Val trg ->
  take 2 (c_str src) = [42; 42] ->
  session w = PTR ->
  has_free w ->
  exists w' conn c',
    capi_indication E true capi_message w = Ok 0 w' /\
    slot w' conn = Some c' /\
    state c' = STATE_RINGING /\ plci c' = adr capi_message /\ type c' = SESSION_NONE /\
    source c' = Some (c_str src) /\ target c' = Some (c_str trg) /\
    trace w' = trace w ++ [wire (ALERT_REQ (appl_id (heap w)) 0 (adr capi_message))].
Proof.
  intros Hcmd Hsrc Htrg Hintern Hs (conn & c & Hscan & Hc & Hfree)%has_free_scan.
  unfold slot in Hc.
  unfold capi_indication, indication_CONNECT. rewrite Hcmd, Hsrc, Htrg.
  assert (Hif : forall reject : bool,
            reject && negb (bool_decide (take 2 (c_str src) = [42; 42])) = false).
  { intros reject. rewrite bool_decide_eq_true_2 by done. apply andb_false_r. }
  unfold capi_get_free_connection, capi_resp_connection.
  step. rewrite Hif. step. rewrite Hs, Hscan. destruct c. run Hc.
  eexists _, conn, _. split; [reflexivity|]. unfold slot. fields.
  rewrite (lookup_insert_same _ _ _ _ Hc).
  repeat match goal with |- _ /\ _ => split end; reflexivity.
Qed.

Lemma internal_indication_accepted_witness :
  exists w',
    capi_indication accepting true
      (connect_ind 769 2 (Some [7; 0; 128; 42; 42; 54; 49; 48]) (Some [6; 128; 49; 50; 51; 52; 53]))
      (fresh 2) = Ok 0 w' /\
    state <$> slot w' 0 = Some STATE_RINGING.
Proof.
  destruct (internal_indication_accepted accepting
              (connect_ind 769 2 (Some [7; 0; 128; 42; 42; 54; 49; 48]) (Some [6; 128; 49; 50; 51; 52; 53]))
              (fresh 2)
              (memcpy (replicate 256 0) 0 (literal "**610"))
              (memcpy (replicate 256 0) 0 (literal "12345")))
    as (w' & conn & c' & Hrun & _); try reflexivity.
  - exists O, zero_connection. split; reflexivity.
  - exists w'. split; [exact Hrun|]. by vm_compute in Hrun; injection Hrun as <-.
Defined.

(** X16. A terminal disconnect indication for a PLCI that no slot holds is
    answered and otherwise ignored: with a session, the disconnect
    response is sent under the next message number, the anomaly is logged,
    the table stays as it was and the handler returns 0. *)
Theorem disconnect_indication_unknown (E : environment) (ACCEPT_INTERN : bool)
    (capi_message : _cmsg) (w : world) :
  Command capi_message = CAPI_DISCONNECT ->
  session w = PTR ->
  capi_find_plci (adr capi_message) w = Ok None w ->
  capi_indication E ACCEPT_INTERN capi_message w =
  Ok 0 (set_trace
          (trace w ++ [wire (DISCONNECT_RESP (appl_id (heap w)) (message_number (heap w))
                               (adr capi_message));
                       debug "Connection not found, IGNORING" 0])
          (set_heap (set_message_number (message_number (heap w) + 1) (heap w)) w)).
Proof.
  intros Hcmd Hs Hfind. unfold capi_indication, indication_DISCONNECT. rewrite Hcmd.
  unfold capi_find_plci in *. step. rewrite Hs in *. step.
  injection Hfind as Hscan. repeat (step; rewrite ?Hs, ?Hscan).
  rewrite <- app_assoc. reflexivity.
Qed.

Lemma disconnect_indication_unknown_witness :
  capi_indication accepting false (disconnect_ind 769 0) busy =
  Ok 0 (set_trace [wire (DISCONNECT_RESP 1 7 769); debug "Connection not found, IGNORING" 0]
          (set_heap (set_message_number 8 (heap busy)) busy)).
Proof.
  refine (disconnect_indication_unknown accepting false (disconnect_ind 769 0) busy _ _ _);
    reflexivity.
Defined.

Lemma find_plci_scan (p : Z) (w : world) (found : option nat) :
  capi_find_plci p w = Ok found w ->
  session w = PTR /\ scan (fun c => plci c =? p) (connection (heap w)) 0 = found.
Proof.
  unfold capi_find_plci. step. destruct (session w); [done|]. by intros [= <-].
Qed.

Lemma find_ncci_scan (n : Z) (w : world) (found : option nat) :
  capi_find_ncci n w = Ok found w ->
  session w = PTR /\ scan (fun c => ncci c =? n) (connection (heap w)) 0 = found.
Proof.
  unfold capi_find_ncci. step. destruct (session w); [done|]. by intros [= <-].
Qed.

(** X17. A data indication, with a session: without a connection for its
    NCCI the handler stops on the failed assertion, and with a connection
    that has no payload handler it stops on the NULL function pointer, in
    both cases before anything is sent; otherwise the payload handler runs
    first, the data response follows under the next message number, for
    the NCCI that the connection holds after the handler has run and with
    the data handle of the indication, and the handler returns 0. *)
Theorem data_indication (E : environment) (ACCEPT_INTERN : bool) (capi_message : _cmsg)
    (w : world) (found : option nat) :
  Command capi_message = CAPI_DATA_B3 ->
  capi_find_ncci (adr capi_message) w = Ok found w ->
  match found with
  | None => capi_indication E ACCEPT_INTERN capi_message w = Crash AssertionFailed w
  | Some conn =>
      forall c, slot w conn = Some c ->
        match data c with
        | None => capi_indication E ACCEPT_INTERN capi_message w = Crash NullPointer w
        | Some h =>
            exists w',
              capi_indication E ACCEPT_INTERN capi_message w = Ok 0 w' /\
              connection (heap w') = <[conn := capability_effect E h c]> (connection (heap w)) /\
              message_number (heap w') = message_number (heap w) + 1 /\
              trace w' = trace w ++
                [hook h (id c);
                 wire (DATA_B3_RESP (appl_id (heap w)) (message_number (heap w))
                         (ncci (capability_effect E h c)) (DataHandle capi_message))]
        end
  end.
Proof.
  intros Hcmd [Hs Hscan]%find_ncci_scan.
  unfold capi_indication, indication_DATA_B3, capi_find_ncci. rewrite Hcmd.
  step. rewrite Hs, Hscan. destruct found as [conn|]; [|reflexivity].
  intros c Hc. unfold slot in Hc. rewrite Hc. destruct (data c) as [h|]; [|reflexivity].
  run Hc. eexists. split; [reflexivity|]. fields.
  repeat match goal with |- _ /\ _ => split end; reflexivity.
Qed.

Lemma data_indication_witness :
  capi_indication accepting false
    (mk_cmsg CAPI_DATA_B3 CAPI_IND 7 0 0 None None 0 None 0 None None 0 0 0) busy
  = Crash AssertionFailed busy.
Proof.
  refine (data_indication accepting false
            (mk_cmsg CAPI_DATA_B3 CAPI_IND 7 0 0 None None 0 None 0 None None 0 0 0)
            busy None _ _); reflexivity.
Defined.

(** X18. A bearer disconnect indication, with a session, is answered under
    the next message number. Without a connection for its NCCI that is
    all, bar a log line. For a connection in CONNECTED or CONNECT_B3_WAIT
    (the remote side hangs up) the reason is stored, the NCCI is cleared
    and the connection moves to DISCONNECT_ACTIVE; no request is sent: the
    physical disconnect is left to the controller. *)
Theorem bearer_disconnect_indication (E : environment) (ACCEPT_INTERN : bool)
    (capi_message : _cmsg) (w : world) (found : option nat) :
  Command capi_message = CAPI_DISCONNECT_B3 ->
  capi_find_ncci (adr capi_message) w = Ok found w ->
  let resp := wire (DISCONNECT_B3_RESP (appl_id (heap w)) (message_number (heap w))
                      (adr capi_message)) in
  match found with
  | None =>
      capi_indication E ACCEPT_INTERN capi_message w =
      Ok 0 (set_trace (trace w ++ [resp; debug "connection not found" 0])
              (set_heap (set_message_number (message_number (heap w) + 1) (heap w)) w))
  | Some conn =>
      forall c, slot w conn = Some c ->
        state c = STATE_CONNECTED \/ state c = STATE_CONNECT_B3_WAIT ->
        exists w',
          capi_indication E ACCEPT_INTERN capi_message w = Ok 0 w' /\
          connection (heap w') =
            <[conn := set_state STATE_DISCONNECT_ACTIVE
                        (set_ncci 0 (set_reason_b3 (Reason_B3 capi_message) c))]>
              (connection (heap w)) /\
          message_number (heap w') = message_number (heap w) + 1 /\
          trace w' = trace w ++ [resp]
  end.
Proof.
  intros Hcmd [Hs Hscan]%find_ncci_scan resp. subst resp.
  unfold capi_indication, indication_DISCONNECT_B3, capi_find_ncci. rewrite Hcmd.
  destruct found as [conn|].
  - intros c Hc Hstate. unfold slot in Hc.
    repeat (step; rewrite ?Hs, ?Hscan, ?Hc). destruct c; cbn [state] in Hstate.
    destruct Hstate as [-> | ->]; run Hc; cbn [state_eqb orb]; run Hc;
      eexists; (split; [reflexivity|]); fields;
      repeat match goal with |- _ /\ _ => split end; reflexivity.
  - repeat (step; rewrite ?Hs, ?Hscan). rewrite <- app_assoc. reflexivity.
Qed.

Lemma bearer_disconnect_indication_witness :
  exists w',
    capi_indication accepting false
      (mk_cmsg CAPI_DISCONNECT_B3 CAPI_IND 65793 0 0 None None 0 None 0 None None 0 13056 0) busy
      = Ok 0 w' /\
    state <$> slot w' 0 = Some STATE_DISCONNECT_ACTIVE /\
    trace w' = [wire (DISCONNECT_B3_RESP 1 7 65793)].
Proof.
  destruct (bearer_disconnect_indication accepting false
              (mk_cmsg CAPI_DISCONNECT_B3 CAPI_IND 65793 0 0 None None 0 None 0 None None 0 13056 0)
              busy (Some 0%nat) eq_refl eq_refl fax_call eq_refl)
    as (w' & Hrun & Htable & _ & Htrace); [by left|].
  exists w'. split; [exact Hrun|]. split; [|exact Htrace].
  unfold slot. rewrite Htable. reflexivity.
Defined.

(** X19. A bearer connect indication whose PLCI no slot holds is dropped
    without an answer: the handler returns 0 and the world, the trace
    included, is as it was. For a connection in CONNECT_ACTIVE the
    indication is accepted under the next message number, the NCCI is
    stored and the connection moves to CONNECT_B3_WAIT. *)
Theorem bearer_connect_indication (E : environment) (ACCEPT_INTERN : bool)
    (capi_message : _cmsg) (w : world) (found : option nat) :
  Command capi_message = CAPI_CONNECT_B3 ->
  capi_find_plci (Z.land (adr capi_message) 65535) w = Ok found w ->
  match found with
  | None => capi_indication E ACCEPT_INTERN capi_message w = Ok 0 w
  | Some conn =>
      forall c, slot w conn = Some c ->
        state c = STATE_CONNECT_ACTIVE ->
        exists w',
          capi_indication E ACCEPT_INTERN capi_message w = Ok 0 w' /\
          connection (heap w') =
            <[conn := set_state STATE_CONNECT_B3_WAIT (set_ncci (adr capi_message) c)]>
              (connection (heap w)) /\
          message_number (heap w') = message_number (heap w) + 1 /\
          trace w' = trace w ++
            [wire (CONNECT_B3_RESP (appl_id (heap w)) (message_number (heap w))
                     (adr capi_message) 0)]
  end.
Proof.
  intros Hcmd [Hs Hscan]%find_plci_scan.
  unfold capi_indication, indication_CONNECT_B3, capi_find_plci. rewrite Hcmd.
  destruct found as [conn|].
  - intros c Hc Hstate. unfold slot in Hc.
    repeat (step; rewrite ?Hs, ?Hscan, ?Hc). destruct c; cbn [state] in Hstate. subst.
    run Hc. cbn [state_eqb]. run Hc. eexists. split; [reflexivity|]. fields.
    repeat match goal with |- _ /\ _ => split end; reflexivity.
  - repeat (step; rewrite ?Hs, ?Hscan). reflexivity.
Qed.

Lemma bearer_connect_indication_witness :
  capi_indication accepting false
    (mk_cmsg CAPI_CONNECT_B3 CAPI_IND 66305 0 0 None None 0 None 0 None None 0 0 0) busy
  = Ok 0 busy.
Proof.
  refine (bearer_connect_indication accepting false
            (mk_cmsg CAPI_CONNECT_B3 CAPI_IND 66305 0 0 None None 0 None 0 None None 0 0 0)
            busy None _ _); reflexivity.
Defined.

(** X20. The bearer active indication of a connection the table knows,
    with a session and an NCPI whose announced length fits: the NCCI and a
    copy of the NCPI are stored, the indication is answered under the next
    message number, the connection is CONNECTED, DTMF detection is
    requested for its PLCI, the initializer of the call kind runs (when
    one is bound) and the connect notification is posted (when the
    application knows the connection), in this order; the handler
    returns 0. *)
Theorem bearer_active_indication (E : environment) (ACCEPT_INTERN : bool)
    (capi_message : _cmsg) (w : world) (conn : nat) (c : capi_connection)
    (cells : list Z) (len : Z) :
  Command capi_message = CAPI_CONNECT_B3_ACTIVE ->
  capi_find_plci (Z.land (adr capi_message) 65535) w = Ok (Some conn) w ->
  slot w conn = Some c ->
  NCPI capi_message = Some cells ->
  cells !! 0%nat = Some len ->
  (Z.to_nat (len + 1) <= length cells)%nat ->
  let c1 := set_state STATE_CONNECTED
              (set_ncpi (Some (take (Z.to_nat (len + 1)) cells))
                 (set_ncci (adr capi_message) c)) in
  let c2 := match init_data c with
            | Some h => capability_effect E h c1
            | None => c1
            end in
  let t1 := trace w ++
            [wire (CONNECT_B3_ACTIVE_RESP (appl_id (heap w)) (message_number (heap w))
                     (adr capi_message));
             wire (FACILITY_REQ (appl_id (heap w)) 0 (plci c) 1
                     [10; 1; 0; 64; 0; 64; 0; 0; 2; 0; 0])] ++
            match init_data c with
            | Some h => [hook h (id c)]
            | None => []
            end in
  exists w',
    capi_indication E ACCEPT_INTERN capi_message w = Ok 0 w' /\
    connection (heap w') = <[conn := c2]> (connection (heap w)) /\
    message_number (heap w') = message_number (heap w) + 1 /\
    trace w' = t1 ++ posted E emit_connect t1 c2.
Proof.
  intros Hcmd [Hs Hscan]%find_plci_scan Hc Hncpi Hlen Hfit c1 c2 t1.
  subst c1 c2 t1. unfold slot in Hc.
  unfold capi_indication, indication_CONNECT_B3_ACTIVE, capi_find_plci, capi_enable_dtmf,
    capi_connection_connect, posted.
  rewrite Hcmd, Hncpi. unfold peek. rewrite Hlen.
  apply Nat.leb_le in Hfit.
  destruct c. fields.
  repeat (step; rewrite ?Hs, ?Hscan). run Hc.
  unfold peek_block. cbn [Nat.add]. rewrite Hfit. cbn [drop]. run Hc.
  destruct init_data0 as [h|]; run Hc.
  - destruct (rm_connection_find_by_id E _ _); run Hc;
      eexists; (split; [reflexivity|]); fields;
      rewrite ?app_nil_r; repeat match goal with |- _ /\ _ => split end; reflexivity.
  - destruct (rm_connection_find_by_id E _ _); run Hc;
      eexists; (split; [reflexivity|]); fields;
      rewrite ?app_nil_r; repeat match goal with |- _ /\ _ => split end; reflexivity.
Qed.

Lemma bearer_active_indication_witness :
  exists w',
    capi_indication accepting false (connect_b3_active_ind 66049 (Some [0])) busy = Ok 0 w' /\
    state <$> slot w' 1 = Some STATE_CONNECTED /\
    trace w' = [wire (CONNECT_B3_ACTIVE_RESP 1 7 66049);
                wire (FACILITY_REQ 1 0 513 1 [10; 1; 0; 64; 0; 64; 0; 0; 2; 0; 0]);
                hook capi_phone_init_data 1025; idle emit_connect 1025].
Proof.
  destruct (bearer_active_indication accepting false (connect_b3_active_ind 66049 (Some [0]))
              busy 1 phone_call [0] 0)
    as (w' & Hrun & Htable & _ & Htrace); try reflexivity.
  exists w'. split; [exact Hrun|]. split; [|exact Htrace].
  unfold slot. rewrite Htable. reflexivity.
Defined.

(** X21. A data confirmation, with a session, sends nothing. It takes one
    buffer off the count of the connection found by NCCI when the
    connection counts its buffers and the count is not 0; otherwise, and
    without such a connection, nothing changes. A count that is not
    negative stays so. *)
Theorem data_confirmation_buffers (E : environment) (capi_message : _cmsg) (w : world)
    (found : option nat) :
  Command capi_message = CAPI_DATA_B3 ->
  capi_find_ncci (adr capi_message) w = Ok found w ->
  match found with
  | None => capi_confirmation E capi_message w = Ok tt w
  | Some conn =>
      forall c, slot w conn = Some c ->
        exists c',
          capi_confirmation E capi_message w = Ok tt (with_slot conn c' w) /\
          c' = set_buffers (buffers c') c /\
          buffers c' = (if (use_buffers c =? 0) || (buffers c =? 0) then buffers c
                        else buffers c - 1) /\
          (0 <= buffers c -> 0 <= buffers c')
  end.
Proof.
  intros Hcmd [Hs Hscan]%find_ncci_scan.
  unfold capi_confirmation, confirmation_DATA_B3, capi_find_ncci. rewrite Hcmd.
  step. rewrite Hs, Hscan. destruct found as [conn|]; [|reflexivity].
  intros c Hc. unfold slot in Hc. rewrite Hc.
  destruct (Z.eqb_spec (use_buffers c) 0) as [Hu|Hu];
    [|destruct (Z.eqb_spec (buffers c) 0) as [Hb|Hb]]; cbn [negb andb orb when].
  - exists c. unfold with_slot. rewrite list_insert_id by done.
    split; [by destruct w as [? []]|]. split; [by destruct c|]. done.
  - exists c. unfold with_slot. rewrite list_insert_id by done.
    split; [by destruct w as [? []]|]. split; [by destruct c|]. done.
  - exists (set_buffers (buffers c - 1) c). rewrite Hc. step.
    split; [reflexivity|]. destruct c; fields. split; [reflexivity|].
    split; [reflexivity|]. cbn in Hb. lia.
Qed.

Lemma data_confirmation_buffers_witness :
  capi_confirmation accepting
    (mk_cmsg CAPI_DATA_B3 CAPI_CONF 7 0 0 None None 0 None 0 None None 0 0 0) busy
  = Ok tt busy.
Proof.
  refine (data_confirmation_buffers accepting
            (mk_cmsg CAPI_DATA_B3 CAPI_CONF 7 0 0 None None 0 None 0 None None 0 0 0)
            busy None _ _); reflexivity.
Defined.

(** ** A call torn down from this side *)

Lemma scan_insert_eq (p : capi_connection -> bool) (table : list capi_connection)
    (conn : nat) (c c' : capi_connection) (i : nat) :
  table !! conn = Some c ->
  p c' = p c ->
  scan p (<[conn := c']> table) i = scan p table i.
Proof.
  revert conn i. induction table as [|a table IH]; intros [|conn] i Hc Hp; try done.
  - injection Hc as ->. cbn. by rewrite Hp.
  - cbn. destruct (p a); [done|]. by apply IH.
Qed.

Lemma wire_requests_polls (n : nat) : wire_requests (replicate n (g_usleep 10)) = [].
Proof. induction n; [done|]. exact IHn. Qed.

Ltac rescan H :=
  match goal with
  | |- context [scan ?p (<[?conn := ?c']> ?table) 0] =>
      rewrite (scan_insert_eq p table conn _ c' 0 H eq_refl)
  end.

(** X22. A connected call that this side hangs up, on a transport that
    accepts every request and a table in which the NCCI and the PLCI of
    the call lead to its slot: hangup requests the bearer disconnect; the
    bearer disconnect indication that follows is answered and makes the
    handler request the physical disconnect; the terminal disconnect
    indication that follows is answered and zeroes the slot. These four
    primitives are all that goes over the wire, in this order, and two
    message numbers are used. *)
Theorem active_teardown (E : environment) (ACCEPT_INTERN : bool) (w : world) (conn : nat)
    (c : capi_connection) (bearer_gone gone : _cmsg) :
  (forall t r, capi20 E t r = 0) ->
  capi_find_ncci (ncci c) w = Ok (Some conn) w ->
  capi_find_plci (plci c) w = Ok (Some conn) w ->
  slot w conn = Some c ->
  state c = STATE_CONNECTED ->
  Command bearer_gone = CAPI_DISCONNECT_B3 -> adr bearer_gone = ncci c ->
  Command gone = CAPI_DISCONNECT -> adr gone = plci c ->
  exists w',
    (capi_hangup E (Some conn) ;;;
     capi_indication E ACCEPT_INTERN bearer_gone ;;;
     capi_indication E ACCEPT_INTERN gone) w = Ok 0 w' /\
    connection (heap w') = <[conn := zero_connection]> (connection (heap w)) /\
    message_number (heap w') = message_number (heap w) + 2 /\
    wire_requests (trace w') = wire_requests (trace w) ++
      [DISCONNECT_B3_REQ (appl_id (heap w)) 1 (ncci c);
       DISCONNECT_B3_RESP (appl_id (heap w)) (message_number (heap w)) (ncci c);
       DISCONNECT_REQ (appl_id (heap w)) 1 (plci c);
       DISCONNECT_RESP (appl_id (heap w)) (message_number (heap w) + 1) (plci c)].
Proof.
  intros Hok [Hs Hncci]%find_ncci_scan [_ Hplci]%find_plci_scan Hc Hstate Hcmd1 Hadr1 Hcmd2 Hadr2.
  unfold slot in Hc.
  unfold capi_indication, indication_DISCONNECT_B3, indication_DISCONNECT,
    capi_find_ncci, capi_find_plci, teardown, capi_connection_disconnect, capi_set_free,
    capi_hangup, connection_status.
  rewrite Hcmd1, Hcmd2, Hadr1, Hadr2.
  destruct c; cbn [state ncci plci] in *; subst.
  repeat progress (run Hc; rewrite ?Hok; cbn [Z.eqb negb state_eqb orb];
                   try rescan Hc; rewrite ?Hncci, ?Hplci).
  destruct type0; cases Hc; rewrite ?spin_trace; cases Hc;
    (eexists; split; [reflexivity|]); fields;
    (split; [reflexivity|]); (split; [lia|]);
    rewrite ?wire_requests_app; cbn [wire_requests app];
    rewrite ?wire_requests_app, ?wire_requests_polls; cbn [wire_requests app];
    rewrite ?app_nil_r; reflexivity.
Qed.

Lemma active_teardown_witness :
  exists w',
    (capi_hangup accepting (Some 0%nat) ;;;
     capi_indication accepting false
       (mk_cmsg CAPI_DISCONNECT_B3 CAPI_IND 65793 0 0 None None 0 None 0 None None 0 0 0) ;;;
     capi_indication accepting false (disconnect_ind 257 0)) busy = Ok 0 w' /\
    slot w' 0 = Some zero_connection /\
    wire_requests (trace w') =
      [DISCONNECT_B3_REQ 1 1 65793; DISCONNECT_B3_RESP 1 7 65793;
       DISCONNECT_REQ 1 1 257; DISCONNECT_RESP 1 8 257].
Proof.
  destruct (active_teardown accepting false busy 0 fax_call
              (mk_cmsg CAPI_DISCONNECT_B3 CAPI_IND 65793 0 0 None None 0 None 0 None None 0 0 0)
              (disconnect_ind 257 0))
    as (w' & Hrun & Htable & _ & Hwire); try reflexivity.
  exists w'. split; [exact Hrun|]. split; [|exact Hwire].
  unfold slot. rewrite Htable. reflexivity.
Defined.

(** ** The dispatch loop *)

Lemma bind_Ok_inv {A B : Type} (m : M A) (k : A -> M B) (w w' : world) (b : B) :
  bind m k w = Ok b w' -> exists a w1, m w = Ok a w1 /\ k a w1 = Ok b w'.
Proof. unfold bind. destruct (m w) as [a w1|f w1]; [by eauto|done]. Qed.

(** X23. The loop cannot run without a session: when the session pointer
    is NULL and the loop is not cancelled, the first iteration stops on
    the NULL dereference of the poll, before anything is sent. *)
Theorem loop_needs_session (E : environment) (ACCEPT_INTERN : bool) (fuel : nat) (w : world) :
  session w = NULL ->
  g_cancellable_is_cancelled E (trace w) = false ->
  capi_loop E ACCEPT_INTERN (S fuel) w = Crash NullPointer w.
Proof.
  intros Hs Hrun. cbn [capi_loop]. unfold bind at 1. unfold get at 1. rewrite Hrun.
  unfold bind at 1. unfold the_session. by rewrite Hs.
Qed.

Lemma loop_needs_session_witness :
  capi_loop accepting false 1 (set_session NULL (fresh 2)) =
  Crash NullPointer (set_session NULL (fresh 2)).
Proof.
  apply (loop_needs_session accepting false 0 (set_session NULL (fresh 2))); reflexivity.
Defined.

(** X24. An iteration of the loop in which no message is signaled sends
    nothing but the poll and goes on with the loop; unless the loop has
    been cancelled meanwhile it sleeps before that, one second when the
    session is not registered (application id -1), one microsecond
    otherwise. *)
Theorem loop_idle_iteration (E : environment) (ACCEPT_INTERN : bool) (fuel : nat) (w : world) :
  session w = PTR ->
  g_cancellable_is_cancelled E (trace w) = false ->
  capi20 E (trace w) (CAPI20_WaitforMessage (appl_id (heap w))) <> 0 ->
  let polled := wire (CAPI20_WaitforMessage (appl_id (heap w))) in
  capi_loop E ACCEPT_INTERN (S fuel) w =
  capi_loop E ACCEPT_INTERN fuel
    (set_trace
       (trace w ++ polled ::
          (if g_cancellable_is_cancelled E (trace w ++ [polled]) then []
           else [g_usleep (if appl_id (heap w) =? -1 then 1000000 else 1)]))
       w).
Proof.
  intros Hs Hrun Hwait%Z.eqb_neq polled. subst polled.
  cbn [capi_loop]. step. rewrite Hrun, Hs. step. rewrite Hwait. step. rewrite Hs.
  destruct (g_cancellable_is_cancelled E (trace w ++ _)); cbn [negb]; step.
  - reflexivity.
  - destruct (appl_id (heap w) =? -1); step; by rewrite <- app_assoc.
Qed.

Lemma loop_idle_iteration_witness :
  capi_loop refusing false 1 (fresh 2) =
  Ok loop_running (set_trace [wire (CAPI20_WaitforMessage 1); g_usleep 1] (fresh 2)).
Proof.
  refine (loop_idle_iteration refusing false 0 (fresh 2) _ _ _); [reflexivity..|discriminate].
Defined.



(** ** Reconnect *)

Lemma init_wire_only (E : environment) (controller : Z) (w : world) :
  exists r t,
    capi_init E controller w = Ok r (set_trace (trace w ++ t) w) /\
    r <> 0 /\
    Forall (fun e => exists q, e = wire q) t.
Proof.
  unfold capi_init. step.
  destruct (negb (capi20 E (trace w) CAPI20_ISINSTALLED =? 0)).
  { eexists _, [_]. split; [reflexivity|]. split; [done|]. repeat constructor. by eexists. }
  step. destruct (negb (capi20 E _ (CAPI20_GET_PROFILE 0) =? 0)).
  { eexists _, [_; _]. split; [cbn; by rewrite <- app_assoc|]. split; [done|].
    repeat constructor; by eexists. }
  destruct (capi20_ncontroller E _ =? 0).
  { eexists _, [_; _]. split; [cbn; by rewrite <- app_assoc|]. split; [done|].
    repeat constructor; by eexists. }
  step. rewrite <- !app_assoc. cbn [app].
  set (appl := capi20_appl_id E _).
  destruct (negb (capi20 E _ CAPI20_REGISTER =? 0) || (appl =? 0)) eqn:Hreg.
  { eexists _, [_; _; _]. split; [reflexivity|]. split; [done|].
    repeat constructor; by eexists. }
  apply orb_false_elim in Hreg as [_ Hne%Z.eqb_neq].
  match goal with |- context [capi_init_listen E ?n ?a ?i ?w0] =>
    destruct (init_listen_run E n a i w0) as (r & t & Hrun & Hall); rewrite Hrun end.
  cbn [trace set_trace] in *.
  exists (match r with Some _ => -3 | None => appl end),
    ([wire CAPI20_ISINSTALLED; wire (CAPI20_GET_PROFILE 0); wire CAPI20_REGISTER] ++ t).
  split; [destruct r; cbn; by rewrite <- app_assoc|].
  split; [by destruct r|].
  repeat (constructor; [by eexists|]).
  eapply Forall_impl; [exact Hall|]. intros e [i ->]. by eexists.
Qed.





(** ** Sending DTMF *)

(** X27. Both DTMF requests are well-formed facility structures: with a
    session, enabling DTMF detection and sending a DTMF code each send one
    facility request with selector 1 and message number 0 and change
    nothing else, and the length byte of the parameter counts exactly the
    bytes written after it. Detection is requested for the PLCI of the
    connection, a code is sent on its NCCI, as the last byte of the
    parameter. *)
Theorem dtmf_requests_wellformed (E : environment) (conn : nat) (dtmf : Z) (w : world)
    (c : capi_connection) :
  session w = PTR ->
  slot w conn = Some c ->
  exists enable send,
    capi_enable_dtmf E conn w =
      Ok tt (set_trace (trace w ++ [wire (FACILITY_REQ (appl_id (heap w)) 0 (plci c) 1 enable)]) w) /\
    capi_send_dtmf_code E conn dtmf w =
      Ok tt (set_trace (trace w ++ [wire (FACILITY_REQ (appl_id (heap w)) 0 (ncci c) 1 send)]) w) /\
    enable !! 0%nat = Some (Z.of_nat (length enable) - 1) /\
    send !! 0%nat = Some (Z.of_nat (length send) - 1) /\
    last send = Some dtmf.
Proof.
  intros Hs Hc. unfold slot in Hc. unfold capi_enable_dtmf, capi_send_dtmf_code.
  run Hc. eexists _, _. split; [reflexivity|]. split; [reflexivity|]. by repeat split.
Qed.

Lemma dtmf_requests_wellformed_witness :
  capi_send_dtmf_code accepting 0 53 busy =
  Ok tt (set_trace [wire (FACILITY_REQ 1 0 65793 1 [8; 3; 0; 48; 0; 48; 0; 1; 53])] busy).
Proof.
  destruct (dtmf_requests_wellformed accepting 0 53 busy fax_call)
    as (enable & send & _ & Hsend & _); [reflexivity..|].
  rewrite Hsend. vm_compute in Hsend. by injection Hsend as <-.
Defined.

(** ** The session of the plugin *)



Lemma session_init_run (E : environment) (CAPI_CONNECTIONS : nat) (host : option cstring)
    (controller : Z) (p : plugin) :
  session (globals p) = NULL ->
  let configuration := match host with
                       | Some h => [capi20ext_set_driver "fritzbox"; capi20ext_set_host h;
                                    capi20ext_set_port 5031; capi20ext_set_tracelevel 0]
                       | None => []
                       end in
  let cancellable := created (setup_log p ++ configuration ++ [create_table_buffer; g_mutex_init]) in
  exists appl t,
    capi_init E controller (globals p) =
      Ok appl (set_trace (trace (globals p) ++ t) (globals p)) /\
    Forall (fun e => exists q, e = wire q) t /\
    capi_session_init E CAPI_CONNECTIONS host controller p =
    if appl <=? 0 then
      Done NULL
        (mk_plugin
           (set_trace (trace (globals p) ++ t ++ [debug "Initialization failed! Error %d!" appl])
              (globals p))
           (capi_loop_cancel p) (main_context p) (setup_log p ++ configuration))
    else
      Done PTR
        (mk_plugin
           (mk_world PTR (set_appl_id appl (g_slice_alloc0 CAPI_CONNECTIONS))
              (unique_id (globals p)) (trace (globals p) ++ t))
           (Some cancellable) true
           (setup_log p ++ configuration ++
            [create_table_buffer; g_mutex_init; g_cancellable_new cancellable;
             g_main_context_get_thread_default; g_thread_new "capi" cancellable])).
Proof.
  intros Hs configuration cancellable.
  destruct (init_wire_only E controller (globals p)) as (appl & t & Hinit & _ & Hwire).
  exists appl, t. split; [exact Hinit|]. split; [exact Hwire|].
  unfold capi_session_init. rewrite Hs.
  assert (Hwithin : forall q, globals q = globals p ->
            within (capi_init E controller) q =
            Done appl (set_globals (set_trace (trace (globals p) ++ t) (globals p)) q)).
  { intros q Hq. unfold within. by rewrite Hq, Hinit. }
  subst configuration cancellable. destruct p as [g cancel context log]. cbn in *.
  destruct host as [h|]; rewrite Hwithin by done;
    (destruct (appl <=? 0);
     [unfold within; step; cbn; rewrite ?app_nil_r, <- ?app_assoc; reflexivity|]);
    unfold record_setup, set_globals, set_capi_loop_cancel, set_main_context; cbn;
    rewrite ?app_nil_r, <- ?app_assoc; cbn; destruct g; reflexivity.
Qed.

Lemma created_app (l1 l2 : list setup) : created (l1 ++ l2) = (created l1 + created l2)%nat.
Proof. induction l1 as [|s l1 IH]; [done|]. destruct s; simpl; by rewrite ?IH. Qed.

Lemma started_app (l1 l2 : list setup) : started (l1 ++ l2) = started l1 ++ started l2.
Proof. induction l1 as [|s l1 IH]; [done|]. destruct s; simpl; by rewrite ?IH. Qed.

Lemma configuration_plain (host : option cstring) :
  let configuration := match host with
                       | Some h => [capi20ext_set_driver "fritzbox"; capi20ext_set_host h;
                                    capi20ext_set_port 5031; capi20ext_set_tracelevel 0]
                       | None => []
                       end in
  created configuration = O /\ started configuration = [].
Proof. by destruct host. Qed.

Lemma occupied_fresh (n : nat) : occupied (replicate n zero_connection) = O.
Proof. unfold occupied. induction n as [|n IH]; [done|exact IH]. Qed.

(** X28. Initializing the plugin without a session always returns. It
    configures the transport for the host (when one is given) and runs
    [capi_init]. When that answers a positive application id, a zeroed
    session with [CAPI_CONNECTIONS] free slots is allocated under that id
    and one thread is started for the loop, on a cancellable created for
    it that becomes the cancellable of the plugin. Otherwise the failure is
    logged and NULL is returned: no session, no cancellable and no thread
    are made, and the session struct and the cancellable of the plugin are
    as they were. *)
Theorem session_init_outcome (E : environment) (CAPI_CONNECTIONS : nat)
    (host : option cstring) (controller : Z) (p : plugin) :
  session (globals p) = NULL ->
  exists r p' appl t,
    capi_session_init E CAPI_CONNECTIONS host controller p = Done r p' /\
    capi_get_session p' = r /\
    capi_init E controller (globals p) =
      Ok appl (set_trace (trace (globals p) ++ t) (globals p)) /\
    match r with
    | PTR =>
        0 < appl /\
        heap (globals p') = set_appl_id appl (g_slice_alloc0 CAPI_CONNECTIONS) /\
        length (connection (heap (globals p'))) = CAPI_CONNECTIONS /\
        occupied (connection (heap (globals p'))) = O /\
        trace (globals p') = trace (globals p) ++ t /\
        capi_loop_cancel p' = Some (created (setup_log p)) /\
        created (setup_log p') = S (created (setup_log p)) /\
        started (setup_log p') = started (setup_log p) ++ [created (setup_log p)]
    | NULL =>
        appl <= 0 /\
        heap (globals p') = heap (globals p) /\
        trace (globals p') =
          trace (globals p) ++ t ++ [debug "Initialization failed! Error %d!" appl] /\
        capi_loop_cancel p' = capi_loop_cancel p /\
        created (setup_log p') = created (setup_log p) /\
        started (setup_log p') = started (setup_log p)
    end.
Proof.
  intros Hs.
  destruct (session_init_run E CAPI_CONNECTIONS host controller p Hs)
    as (appl & t & Hinit & _ & Hrun).
  destruct (configuration_plain host) as [Hcreated Hstarted].
  cbv zeta in *. rewrite Hrun.
  destruct (Z.leb_spec appl 0) as [Hle|Hgt].
  - eexists _, _, appl, t. split; [reflexivity|]. split; [exact Hs|].
    split; [exact Hinit|]. cbn. rewrite created_app, started_app, Hcreated, Hstarted.
    rewrite app_nil_r, Nat.add_0_r. by repeat split.
  - eexists _, _, appl, t. split; [reflexivity|]. split; [reflexivity|].
    split; [exact Hinit|]. cbn.
    rewrite !created_app, !started_app, Hcreated, Hstarted. cbn.
    rewrite length_replicate, ?Nat.add_0_r, ?app_nil_r.
    repeat match goal with |- _ /\ _ => split end; try done; try lia.
    apply occupied_fresh.
Qed.

Lemma session_init_outcome_witness :
  exists p',
    capi_session_init accepting 2 (Some (literal "fritz.box")) 1 unloaded = Done PTR p' /\
    heap (globals p') = mk_session 1 0 0 [zero_connection; zero_connection] /\
    started (setup_log p') = [O].
Proof.
  destruct (session_init_outcome accepting 2 (Some (literal "fritz.box")) 1 unloaded)
    as (r & p' & appl & t & Hrun & _ & _ & _); [reflexivity|].
  vm_compute in Hrun. injection Hrun as <- <-. eexists. split; [reflexivity|]. by split.
Defined.


